(** * Driver adapter contract: value mappers, error mapper, transaction depth

    A shallow embedding of the TypeScript adapter skeleton
    ([MyQueryable], [MyTransaction], [MyAdapter], [mapArg], [mapRow],
    [convertDriverError]) together with the properties its design
    document states about it.

    Conventions of the embedding.
    - A JavaScript value is a term of [JsValue]; a [number] is an IEEE 754
      binary64 value, represented by the Standard Library's [spec_float].
      The counter [#transactionDepth] only ever holds small integers, on
      which binary64 arithmetic is exact, and is kept as a [Z].
    - Built-ins of the JavaScript runtime that the code calls
      ([Number.parseInt], [BigInt], [Buffer.from], [Date.prototype.toISOString],
      [JSON.stringify]) are fields of a [Platform] record, as are the two
      expressions [queryRaw] leaves open for the column metadata. A [Date]
      is a time value or the Invalid Date, on which [toISOString] throws;
      [JSON.stringify] may return text, return [undefined], or throw.
    - The native connection is a trace of the calls made on it plus an
      oracle ([Driver]) that decides, from the trace so far, whether a call
      returns or throws.
    - An [async] method is a state transformer over the adapter object that
      ends in a [Completion]: it returns (the promise resolves) or throws
      (the promise rejects). *)

From Stdlib Require Import ZArith String List DecimalString.
From Stdlib Require Import Floats.SpecFloat.
From stdpp Require Import base decidable list strings gmap pretty.

Set Warnings "-register-all".
Local Open Scope Z_scope.
Local Open Scope string_scope.
Local Open Scope list_scope.

(** ** JavaScript values *)

Definition JsNumber := spec_float.

(** The binary64 value of an integer ([prec = 53], [emax = 1024]). *)
Definition number_of_Z (z : Z) : JsNumber := binary_normalize 53 1024 z 0 false.

(** A [Date] object: a time value in milliseconds since the epoch, or the
    Invalid Date (whose time value is [NaN]). *)
Inductive JsDate : Type :=
| ValidDate (time : Z)
| InvalidDate.

Inductive JsValue : Type :=
| VUndefined
| VNull
| VBool (b : bool)
| VNumber (n : JsNumber)
| VBigInt (z : Z)
| VString (s : string)
| VDate (d : JsDate)
| VBuffer (bytes : list Byte.byte)
| VArray (items : list JsValue)
| VObject (fields : list (string * JsValue)).

(** The result of the [typeof] operator. *)
Inductive JsType := TyUndefined | TyObject | TyBoolean | TyNumber | TyBigint | TyString.

Definition typeof (v : JsValue) : JsType :=
  match v with
  | VUndefined => TyUndefined
  | VNull => TyObject
  | VBool _ => TyBoolean
  | VNumber _ => TyNumber
  | VBigInt _ => TyBigint
  | VString _ => TyString
  | VDate _ | VBuffer _ | VArray _ | VObject _ => TyObject
  end.

(** [v === null || v === undefined] *)
Definition nullish (v : JsValue) : bool :=
  match v with
  | VUndefined | VNull => true
  | _ => false
  end.

(** [v instanceof Date] *)
Definition instanceof_Date (v : JsValue) : bool :=
  match v with
  | VDate _ => true
  | _ => false
  end.

(** ** Errors *)

(** The members of [MappedError] that the adapter produces. *)
Inductive MappedError : Type :=
| GenericJs (id : Z)
| UniqueConstraintViolation
| NullConstraintViolation
| ForeignKeyConstraintViolation
| TableDoesNotExist
| InvalidIsolationLevel (level : string)
| sqlite (extendedCode : Z) (message : string)
| postgres (code severity message : string) (detail column hint : option string).

(** An [Error] instance as [convertDriverError] looks at it:
    [Error & { code?: string; errno?: number }]. *)
Record JsError := {
  name : string;
  message : string;
  code : option string;
  errno : option Z
}.

(** What a [throw] can carry: an [Error] instance of the driver or of the
    runtime, a value that is not an [Error], or the adapter's own
    [DriverAdapterError] wrapping a [MappedError]. *)
Inductive Thrown : Type :=
| ErrorInstance (e : JsError)
| NonError (v : JsValue)
| DriverAdapterError (cause : MappedError).

Inductive Completion (A : Type) : Type :=
| Returns (a : A)
| Throws (t : Thrown).
Arguments Returns {A} a.
Arguments Throws {A} t.

(** [g(f(...))]: the outer call runs only if the inner one returned. *)
Definition and_then {A B} (c : Completion A) (g : A -> Completion B)
  : Completion B :=
  match c with
  | Returns a => g a
  | Throws t => Throws t
  end.

(** [xs.map((arg, i) => f(arg, i))], stopping at the first throw. *)
Fixpoint map_from {A B} (f : A -> nat -> Completion B) (i : nat) (xs : list A)
  : Completion (list B) :=
  match xs with
  | [] => Returns []
  | x :: xs' =>
      match f x i with
      | Throws t => Throws t
      | Returns y =>
          match map_from f (S i) xs' with
          | Throws t => Throws t
          | Returns ys => Returns (y :: ys)
          end
      end
  end.

(** The view of a thrown value as an [Error] instance, when it is one.
    A [DriverAdapterError] is an [Error] named after its class, with neither
    [code] nor [errno]. *)
Definition as_Error (error : Thrown) : option JsError :=
  match error with
  | ErrorInstance e => Some e
  | NonError _ => None
  | DriverAdapterError cause =>
      Some {| name := "DriverAdapterError"; message := "";
              code := None; errno := None |}
  end.

(** Truthiness of an optional string: [undefined] and [""] are falsy. *)
Definition truthy_string (s : option string) : bool :=
  match s with
  | Some s => negb (String.eqb s "")
  | None => false
  end.

(** [dbError.code === c] *)
Definition code_is (e : JsError) (c : string) : bool :=
  match code e with
  | Some c' => String.eqb c' c
  | None => false
  end.

Definition convertDriverError (error : Thrown) : MappedError :=
  match as_Error error with
  | Some dbError =>
      if code_is dbError "23505" then UniqueConstraintViolation
      else if code_is dbError "23502" then NullConstraintViolation
      else if code_is dbError "23503" then ForeignKeyConstraintViolation
      else if code_is dbError "42P01" then TableDoesNotExist
      else if String.eqb (name dbError) "SQLiteError" then
        sqlite (default 1 (errno dbError)) (message dbError)
      else if truthy_string (code dbError) then
        postgres (default "" (code dbError)) "ERROR" (message dbError)
                 None None None
      else GenericJs 0
  | None => GenericJs 0
  end.

(** ** Argument and column types *)

Inductive ArgScalarType :=
| ScalarString | ScalarInt | ScalarBigint | ScalarFloat | ScalarDecimal
| ScalarBoolean | ScalarEnum | ScalarUuid | ScalarJson | ScalarDatetime
| ScalarBytes | ScalarUnknown.

Inductive Arity := ArityScalar | ArityList.

Record ArgType := {
  scalarType : ArgScalarType;
  dbType : option string;
  arity : Arity
}.

Definition ColumnType := Z.

Module ColumnTypeEnum.
Definition Int32 : ColumnType := 0.
Definition Int64 : ColumnType := 1.
Definition Float : ColumnType := 2.
Definition Double : ColumnType := 3.
Definition Numeric : ColumnType := 4.
Definition Boolean : ColumnType := 5.
Definition Character : ColumnType := 6.
Definition Text : ColumnType := 7.
Definition Date : ColumnType := 8.
Definition Time : ColumnType := 9.
Definition DateTime : ColumnType := 10.
Definition Json : ColumnType := 11.
Definition Enum : ColumnType := 12.
Definition Bytes : ColumnType := 13.
Definition Set_ : ColumnType := 14.
Definition Uuid : ColumnType := 15.
Definition Int32Array : ColumnType := 64.
Definition Int64Array : ColumnType := 65.
Definition FloatArray : ColumnType := 66.
Definition DoubleArray : ColumnType := 67.
Definition NumericArray : ColumnType := 68.
Definition BooleanArray : ColumnType := 69.
Definition CharacterArray : ColumnType := 70.
Definition TextArray : ColumnType := 71.
Definition DateArray : ColumnType := 72.
Definition TimeArray : ColumnType := 73.
Definition DateTimeArray : ColumnType := 74.
Definition JsonArray : ColumnType := 75.
Definition EnumArray : ColumnType := 76.
Definition BytesArray : ColumnType := 77.
Definition UuidArray : ColumnType := 78.
Definition UnknownNumber : ColumnType := 128.
End ColumnTypeEnum.

(** What [client.query] resolves to: an array of rows with an optional
    [affectedRows] property. *)
Record NativeResult := {
  resultRows : list (list JsValue);
  affectedRows : option Z
}.

(** ** The platform: runtime built-ins and the target engine *)

Record Platform := {
  (** [Number.parseInt(s, 10)] *)
  parseInt10 : string -> JsNumber;
  (** [Number.parseFloat(s)] *)
  parseFloat : string -> JsNumber;
  (** [BigInt(s)]; [None] when it throws a [SyntaxError] *)
  BigInt : string -> option Z;
  (** [Buffer.from(s, "base64")] *)
  Buffer_from_base64 : string -> list Byte.byte;
  (** [d.toISOString()] for a Date with the given time value *)
  toISOString : Z -> string;
  (** [JSON.stringify(v)]: it returns text or [undefined] ([None]), or it
      throws *)
  JSON_stringify : JsValue -> Completion (option string);
  (** the engine test left open in [mapArg]: the target is SQLite *)
  targetIsSQLite : bool;
  (** the expression left open in [queryRaw] for [columnNames]; it is
      evaluated inside the [try] block and may throw *)
  columnNamesOf : NativeResult -> Completion (list string);
  (** the expression left open in [queryRaw] for [columnTypes] *)
  columnTypesOf : NativeResult -> Completion (list ColumnType)
}.

(** What [toISOString] throws on the Invalid Date. *)
Definition RangeError_invalid_time : Thrown :=
  ErrorInstance {| name := "RangeError"; message := "Invalid time value";
                   code := None; errno := None |}.

(** [d.toISOString()] *)
Definition Date_toISOString (P : Platform) (d : JsDate) : Completion string :=
  match d with
  | ValidDate time => Returns (toISOString P time)
  | InvalidDate => Throws RangeError_invalid_time
  end.

Definition BigInt_SyntaxError (s : string) : Thrown :=
  ErrorInstance {| name := "SyntaxError";
                   message := "Cannot convert " +:+ s +:+ " to a BigInt";
                   code := None; errno := None |}.

(** ** Value mappers *)

Section ValueMappers.
Context (P : Platform).

Definition mapArg (arg : JsValue) (argType : ArgType) : Completion JsValue :=
  match arg with
  | VNull | VUndefined => Returns VNull
  | VString s =>
      match scalarType argType with
      | ScalarInt => Returns (VNumber (parseInt10 P s))
      | ScalarFloat => Returns (VNumber (parseFloat P s))
      | ScalarBigint =>
          match BigInt P s with
          | Some z => Returns (VBigInt z)
          | None => Throws (BigInt_SyntaxError s)
          end
      | ScalarBytes => Returns (VBuffer (Buffer_from_base64 P s))
      | _ => Returns arg
      end
  | VBool b =>
      if targetIsSQLite P
      then Returns (VNumber (number_of_Z (if b then 1 else 0)))
      else Returns arg
  | _ => Returns arg
  end.

(** [row[i] ?? null] *)
Definition or_null (v : JsValue) : JsValue := if nullish v then VNull else v.

(** What [result.push(JSON.stringify(value))] pushes. *)
Definition stringified (r : option string) : JsValue :=
  match r with
  | Some text => VString text
  | None => VUndefined
  end.

(** One turn of the loop of [mapRow]: the value pushed for [row[i]],
    given [columnTypes[i]] ([None] when the index is out of range), or
    what the turn throws. *)
Definition mapCell (cell : JsValue) (colType : option ColumnType)
  : Completion JsValue :=
  let value := or_null cell in
  match value with
  | VNull => Returns VNull
  | VBigInt z => Returns (VString (pretty z))
  | VDate d => and_then (Date_toISOString P d) (fun text => Returns (VString text))
  | _ =>
      match colType, typeof value with
      | Some c, TyObject =>
          if Z.eqb c ColumnTypeEnum.Json
          then and_then (JSON_stringify P value) (fun r => Returns (stringified r))
          else Returns value
      | _, _ => Returns value
      end
  end.

(** The loop runs over the indices of [row] in order and ends at the first
    turn that throws. *)
Definition mapRow (row : list JsValue) (columnTypes : list ColumnType)
  : Completion (list JsValue) :=
  map_from (fun cell i => mapCell cell (columnTypes !! i)) 0%nat row.

End ValueMappers.

(** ** Queries, results and the native connection *)

Record SqlQuery := {
  sql : string;
  args : list JsValue;
  argTypes : list ArgType
}.

Record SqlResultSet := {
  columnNames : list string;
  columnTypes : list ColumnType;
  rows : list (list JsValue);
  lastInsertId : option string
}.

(** A call on the native connection handle: [client.query(sql, args)]
    ([args] is [None] when the call passes the statement alone) or
    [client.close()]. *)
Inductive NativeCall : Type :=
| CallQuery (statement : string) (bound : option (list JsValue))
| CallClose.

(** The connection, as the adapter can observe it: the calls made so far. *)
Definition Connection := list NativeCall.

(** The native driver: whether a call, after a given history, returns or
    throws. *)
Definition Driver := Connection -> NativeCall -> Completion NativeResult.

(** The adapter object: its private counter and its connection handle.
    Every [MyTransaction] it creates is built on the same handle. *)
Record MyAdapter := {
  transactionDepth : Z;
  client : Connection
}.

(** [new MyAdapter(client)] on a connection nobody has used yet. *)
Definition newAdapter : MyAdapter := {| transactionDepth := 0; client := [] |}.

Definition set_depth (f : Z -> Z) (a : MyAdapter) : MyAdapter :=
  {| transactionDepth := f (transactionDepth a); client := client a |}.

(** ** Asynchronous methods *)

Definition Async (A : Type) : Type := MyAdapter -> Completion A * MyAdapter.

Definition ret {A} (x : A) : Async A := fun a => (Returns x, a).

Definition throw {A} (t : Thrown) : Async A := fun a => (Throws t, a).

Definition bind {A B} (m : Async A) (k : A -> Async B) : Async B :=
  fun a =>
    match m a with
    | (Returns x, a') => k x a'
    | (Throws t, a') => (Throws t, a')
    end.

(** [try { m } catch (e) { handler(e) }] *)
Definition try_catch {A} (m : Async A) (handler : Thrown -> Async A) : Async A :=
  fun a =>
    match m a with
    | (Returns x, a') => (Returns x, a')
    | (Throws t, a') => handler t a'
    end.

(** A synchronous computation that may throw, run inside a method. *)
Definition lift {A} (c : Completion A) : Async A := fun a => (c, a).

Declare Scope async_scope.
Delimit Scope async_scope with async.
Notation "x <- m ;; k" := (bind m (fun x => k))
  (at level 100, m at next level, right associativity) : async_scope.
Notation "m ;; k" := (bind m (fun _ => k))
  (at level 100, right associativity) : async_scope.
Local Open Scope async_scope.

(** [this.#transactionDepth = f(this.#transactionDepth)] *)
Definition update_depth (f : Z -> Z) : Async unit :=
  fun a => (Returns tt, set_depth f a).

Definition read_depth : Async Z := fun a => (Returns (transactionDepth a), a).

Record TransactionOptions := { usePhantomQuery : bool }.

(** A transaction object: its read-only [options] and the [#release]
    closure it was given. Its connection handle is the adapter's. *)
Record MyTransaction := {
  options : TransactionOptions;
  release : MyAdapter -> MyAdapter
}.

Definition IsolationLevel := string.

Section Adapter.
Context (P : Platform) (driver : Driver).

(** [await this.client.query(statement, bound)] *)
Definition client_query (statement : string) (bound : option (list JsValue))
  : Async NativeResult :=
  fun a =>
    (driver (client a) (CallQuery statement bound),
     {| transactionDepth := transactionDepth a;
        client := client a ++ [CallQuery statement bound] |}).

(** [await this.client.close()] *)
Definition client_close : Async unit :=
  fun a =>
    (match driver (client a) CallClose with
     | Returns _ => Returns tt
     | Throws t => Throws t
     end,
     {| transactionDepth := transactionDepth a;
        client := client a ++ [CallClose] |}).

(** *** MyQueryable *)

Definition onError {A} (error : Thrown) : Async A :=
  throw (DriverAdapterError (convertDriverError error)).

Definition unknownArg : ArgType :=
  {| scalarType := ScalarUnknown; dbType := None; arity := ArityScalar |}.

(** [query.args.map((arg, i) => mapArg(arg, query.argTypes[i] ?? unknown))] *)
Definition mapArgs (query : SqlQuery) : Completion (list JsValue) :=
  map_from (fun arg i => mapArg P arg (default unknownArg (argTypes query !! i)))
           0%nat (args query).

Definition queryRaw (query : SqlQuery) : Async SqlResultSet :=
  try_catch
    (bound <- lift (mapArgs query) ;;
     result <- client_query (sql query) (Some bound) ;;
     columnNames <- lift (columnNamesOf P result) ;;
     columnTypes <- lift (columnTypesOf P result) ;;
     rows <- lift (map_from (fun row _ => mapRow P row columnTypes) 0%nat
                            (resultRows result)) ;;
     ret {| columnNames := columnNames; columnTypes := columnTypes;
            rows := rows; lastInsertId := None |})
    onError.

Definition executeRaw (query : SqlQuery) : Async Z :=
  try_catch
    (bound <- lift (mapArgs query) ;;
     result <- client_query (sql query) (Some bound) ;;
     ret (default 0 (affectedRows result)))
    onError.

(** *** MyTransaction *)

(** Calling the closure [this.#release()]. *)
Definition call_release (tx : MyTransaction) : Async unit :=
  fun a => (Returns tt, release tx a).

Definition commit (tx : MyTransaction) : Async unit :=
  (call_release tx ;; ret tt).

Definition rollback (tx : MyTransaction) : Async unit :=
  (call_release tx ;; ret tt).

(** *** MyAdapter *)

Definition validLevels : gset IsolationLevel :=
  {[ "READ UNCOMMITTED"; "READ COMMITTED"; "REPEATABLE READ"; "SERIALIZABLE" ]}.

(** The body of [executeScript] is an empty [try] block. *)
Definition executeScript (script : string) : Async unit :=
  try_catch (ret tt) onError.

(** [isolationLevel ? `BEGIN ISOLATION LEVEL ${isolationLevel}` : "BEGIN"] *)
Definition beginSql (isolationLevel : option IsolationLevel) : string :=
  if truthy_string isolationLevel
  then "BEGIN ISOLATION LEVEL " +:+ default "" isolationLevel
  else "BEGIN".

(** [`SAVEPOINT sp_${depth}`] *)
Definition savepointSql (depth : Z) : string := "SAVEPOINT sp_" +:+ pretty depth.

(** [isolationLevel !== undefined && !validLevels.has(isolationLevel)] *)
Definition rejectedLevel (isolationLevel : option IsolationLevel) : option string :=
  match isolationLevel with
  | Some level => if decide (level ∈ validLevels) then None else Some level
  | None => None
  end.

Definition startTransaction (isolationLevel : option IsolationLevel)
  : Async MyTransaction :=
  match rejectedLevel isolationLevel with
  | Some level => throw (DriverAdapterError (InvalidIsolationLevel level))
  | None =>
      let options := {| usePhantomQuery := false |} in
      update_depth (fun d => d + 1) ;;
      depth <- read_depth ;;
      try_catch
        (if Z.eqb depth 1
         then (client_query (beginSql isolationLevel) None ;; ret tt)
         else (client_query (savepointSql depth) None ;; ret tt))
        (fun e => update_depth (fun d => d - 1) ;; onError e) ;;
      let release := set_depth (fun d => d - 1) in
      ret {| options := options; release := release |}
  end.

Definition dispose : Async unit := client_close.

End Adapter.

(** ** Sequences of lifecycle calls *)

(** The two terminal calls of a transaction. *)
Inductive Terminal := Commit | Rollback.

Definition terminal (h : Terminal) (tx : MyTransaction) : Async unit :=
  match h with
  | Commit => commit tx
  | Rollback => rollback tx
  end.

(** Terminal calls made one after the other, each on its transaction. *)
Fixpoint terminals (steps : list (Terminal * MyTransaction)) : Async unit :=
  match steps with
  | [] => ret tt
  | (h, tx) :: rest => (terminal h tx ;; terminals rest)
  end.

(** Nested [startTransaction] calls made one after the other on the same
    adapter; the sequence stops at the first call that fails. *)
Fixpoint startAll (driver : Driver) (levels : list (option IsolationLevel))
  : Async (list MyTransaction) :=
  match levels with
  | [] => ret []
  | level :: rest =>
      (tx <- startTransaction driver level ;;
       txs <- startAll driver rest ;;
       ret (tx :: txs))
  end.

(** The statement a [startTransaction] that reaches depth [depth] sends. *)
Definition startSql (isolationLevel : option IsolationLevel) (depth : Z) : string :=
  if Z.eqb depth 1 then beginSql isolationLevel else savepointSql depth.

Definition is_begin (c : NativeCall) : bool :=
  match c with
  | CallQuery statement _ => String.prefix "BEGIN" statement
  | CallClose => false
  end.

Definition is_savepoint (c : NativeCall) : bool :=
  match c with
  | CallQuery statement _ => String.prefix "SAVEPOINT" statement
  | CallClose => false
  end.

Definition count_calls (p : NativeCall -> bool) (issued : list NativeCall) : nat :=
  length (List.filter p issued).

(** [SAVEPOINT sp_from], ..., [SAVEPOINT sp_(from + n - 1)] *)
Definition savepointCalls (from : Z) (n : nat) : list NativeCall :=
  (fun k => CallQuery (savepointSql k) None) <$> seqZ from (Z.of_nat n).

(** ** Drivers and a platform for closed examples *)

Definition emptyResult : NativeResult :=
  {| resultRows := []; affectedRows := None |}.

(** A driver that accepts every call. *)
Definition acceptingDriver : Driver := fun _ _ => Returns emptyResult.

(** A driver whose server is shutting down: every call throws an [Error]
    carrying the code [57P01]. *)
Definition shutdownError : JsError :=
  {| name := "error"; message := "terminating connection";
     code := Some "57P01"; errno := None |}.

Definition refusingDriver : Driver := fun _ _ => Throws (ErrorInstance shutdownError).

(** Stand-ins for the built-ins, defined on decimal literals. *)
Definition decimal (s : string) : option Z :=
  Z.of_int <$> DecimalString.NilZero.int_of_string s.

(** Whether a value holds a bigint, on which [JSON.stringify] throws. *)
Fixpoint holds_bigint (v : JsValue) : bool :=
  match v with
  | VBigInt _ => true
  | VArray items => existsb holds_bigint items
  | VObject fields => existsb (fun field => holds_bigint (snd field)) fields
  | _ => false
  end.

Definition TypeError_bigint : Thrown :=
  ErrorInstance {| name := "TypeError";
                   message := "Do not know how to serialize a BigInt";
                   code := None; errno := None |}.

Definition examplePlatform : Platform :=
  {| parseInt10 := fun s => from_option number_of_Z S754_nan (decimal s);
     parseFloat := fun s => from_option number_of_Z S754_nan (decimal s);
     BigInt := decimal;
     Buffer_from_base64 := fun _ => [];
     toISOString := fun _ => "1970-01-01T00:00:00.000Z";
     JSON_stringify := fun v =>
       if holds_bigint v then Throws TypeError_bigint else Returns (Some "{}");
     targetIsSQLite := true;
     columnNamesOf := fun _ => Returns ["id"; "payload"];
     columnTypesOf := fun _ =>
       Returns [ColumnTypeEnum.Int64; ColumnTypeEnum.Json] |}.

(** A driver that answers every query with one row of two values. *)
Definition oneRowResult : NativeResult :=
  {| resultRows := [[VBigInt 9007199254740993; VObject [("a", VNull)]]];
     affectedRows := None |}.

Definition oneRowDriver : Driver := fun _ _ => Returns oneRowResult.

(** A driver for a connection that can be closed: [close()] succeeds, and
    every call made after it throws a plain [Error]. *)
Definition closedError : JsError :=
  {| name := "Error"; message := "Connection is closed";
     code := None; errno := None |}.

Definition is_close (c : NativeCall) : bool :=
  match c with
  | CallClose => true
  | CallQuery _ _ => false
  end.

Definition closableDriver : Driver :=
  fun history _ =>
    if existsb is_close history
    then Throws (ErrorInstance closedError)
    else Returns emptyResult.

(** The codes that the first four tests of [convertDriverError] recognise,
    with the kind each one selects. *)
Definition errorTable : list (string * MappedError) :=
  [("23505", UniqueConstraintViolation);
   ("23502", NullConstraintViolation);
   ("23503", ForeignKeyConstraintViolation);
   ("42P01", TableDoesNotExist)].

Definition in_errorTable (c : option string) : Prop :=
  exists c' kind, c = Some c' /\ (c', kind) ∈ errorTable.

(** What [queryRaw] makes of a result the driver returned: the two open
    expressions, then the rows one by one; whatever throws on the way is
    handed to [onError]. *)
Definition resultSetOf (P : Platform) (result : NativeResult)
  : Completion SqlResultSet :=
  and_then (columnNamesOf P result) (fun names =>
  and_then (columnTypesOf P result) (fun types =>
  and_then (map_from (fun row _ => mapRow P row types) 0%nat (resultRows result))
    (fun mapped =>
       Returns {| columnNames := names; columnTypes := types;
                  rows := mapped; lastInsertId := None |}))).

(** The transaction object every successful [startTransaction] builds. *)
Definition builtTransaction : MyTransaction :=
  {| options := {| usePhantomQuery := false |};
     release := set_depth (fun d => d - 1) |}.

(** ** Column-type inference *)

(** [inferColumnType]. Its parameter type excludes [null] and [undefined];
    the tests are kept in the order of the source, a [Buffer] being a
    [Uint8Array]. *)
Definition inferColumnType (value : JsValue) : ColumnType :=
  match value with
  | VBool _ => ColumnTypeEnum.Boolean
  | VBigInt _ => ColumnTypeEnum.Int64
  | VBuffer _ => ColumnTypeEnum.Bytes
  | VDate _ => ColumnTypeEnum.DateTime
  | VArray _ => ColumnTypeEnum.Text
  | VObject _ | VNull => ColumnTypeEnum.Json
  | VNumber _ => ColumnTypeEnum.UnknownNumber
  | VString _ | VUndefined => ColumnTypeEnum.Text
  end.

(** ** A client session *)

(** What a caller does with an adapter: start a transaction, finish the
    innermost open one, or run a statement. *)
Inductive Step : Type :=
| StepStart (level : option IsolationLevel)
| StepFinish (h : Terminal)
| StepExecute (query : SqlQuery).

(** A session runs its steps in order and stops at the first one that
    fails; [open] holds the transactions not yet finished, innermost first.
    A finish with no open transaction has nothing to call. *)
Fixpoint session (P : Platform) (driver : Driver) (steps : list Step)
  (open : list MyTransaction) : Async (list MyTransaction) :=
  match steps with
  | [] => ret open
  | StepStart level :: rest =>
      (tx <- startTransaction driver level ;;
       session P driver rest (tx :: open))
  | StepFinish h :: rest =>
      match open with
      | [] => session P driver rest []
      | tx :: open' => (terminal h tx ;; session P driver rest open')
      end
  | StepExecute query :: rest =>
      (executeRaw P driver query ;; session P driver rest open)
  end.

Definition is_start (s : Step) : bool :=
  match s with
  | StepStart _ => true
  | _ => false
  end.

Definition is_execute (s : Step) : bool :=
  match s with
  | StepExecute _ => true
  | _ => false
  end.

(** A platform whose [BigInt] rejects every string. *)
Definition strictPlatform : Platform :=
  {| parseInt10 := parseInt10 examplePlatform;
     parseFloat := parseFloat examplePlatform;
     BigInt := fun _ => None;
     Buffer_from_base64 := Buffer_from_base64 examplePlatform;
     toISOString := toISOString examplePlatform;
     JSON_stringify := JSON_stringify examplePlatform;
     targetIsSQLite := false;
     columnNamesOf := columnNamesOf examplePlatform;
     columnTypesOf := columnTypesOf examplePlatform |}.

(** * Properties *)

(** ** The shape of [startTransaction] *)

Lemma startTransaction_unfold driver isolationLevel a :
  startTransaction driver isolationLevel a =
  match rejectedLevel isolationLevel with
  | Some level => (Throws (DriverAdapterError (InvalidIsolationLevel level)), a)
  | None =>
      let depth := transactionDepth a + 1 in
      let call := CallQuery (startSql isolationLevel depth) None in
      match driver (client a) call with
      | Returns _ =>
          (Returns builtTransaction,
           {| transactionDepth := depth; client := client a ++ [call] |})
      | Throws e =>
          (Throws (DriverAdapterError (convertDriverError e)),
           {| transactionDepth := depth - 1; client := client a ++ [call] |})
      end
  end.
Proof.
  unfold startTransaction, startSql.
  destruct (rejectedLevel isolationLevel) as [level|]; [reflexivity|].
  unfold bind, try_catch, update_depth, read_depth, set_depth, client_query,
    onError, throw, ret; simpl.
  destruct (Z.eqb (transactionDepth a + 1) 1); simpl;
    destruct (driver (client a) _); reflexivity.
Qed.

Lemma startTransaction_Returns driver isolationLevel a tx a' :
  startTransaction driver isolationLevel a = (Returns tx, a') ->
  tx = builtTransaction /\
  a' = {| transactionDepth := transactionDepth a + 1;
          client := client a ++
            [CallQuery (startSql isolationLevel (transactionDepth a + 1)) None] |}.
Proof.
  rewrite startTransaction_unfold.
  destruct (rejectedLevel isolationLevel); [discriminate|].
  cbv zeta. destruct (driver (client a) _); [|discriminate].
  intros [= <- <-]. split; reflexivity.
Qed.

Lemma rejectedLevel_None_valid level :
  rejectedLevel (Some level) = None <-> level ∈ validLevels.
Proof.
  unfold rejectedLevel. destruct (decide (level ∈ validLevels)); split;
    intros; try done.
Qed.

Lemma terminal_unfold h tx a : terminal h tx a = (Returns tt, release tx a).
Proof. destruct h; reflexivity. Qed.

Lemma terminals_decrement steps :
  Forall (fun step => snd step = builtTransaction) steps ->
  forall a,
    terminals steps a =
    (Returns tt,
     {| transactionDepth := transactionDepth a - Z.of_nat (length steps);
        client := client a |}).
Proof.
  induction 1 as [|[h tx] rest Htx _ IH]; intros a.
  - destruct a as [d c]. cbn [terminals length transactionDepth client].
    unfold ret. do 2 f_equal. lia.
  - simpl in Htx. subst tx. cbn [terminals]. unfold bind.
    rewrite terminal_unfold, IH.
    cbn [release builtTransaction set_depth transactionDepth client length].
    do 2 f_equal. lia.
Qed.

(** ** Lifecycle hooks *)

(** C1. For every transaction that [startTransaction] returns, [commit()]
    and [rollback()] send nothing to the native connection, whatever the
    state of the adapter when they are invoked: each hook is exactly one
    call of the release callback followed by a resolved promise, and that
    callback leaves the connection's trace as it was. *)
Theorem hooks_issue_no_sql driver isolationLevel a tx a' :
  startTransaction driver isolationLevel a = (Returns tx, a') ->
  forall b,
    commit tx b = (Returns tt, release tx b) /\
    rollback tx b = (Returns tt, release tx b) /\
    client (snd (commit tx b)) = client b /\
    client (snd (rollback tx b)) = client b.
Proof.
  intros Hstart b. apply startTransaction_Returns in Hstart as [-> _].
  repeat split.
Qed.

Lemma hooks_issue_no_sql_witness :
  commit builtTransaction
    {| transactionDepth := 1;
       client := [CallQuery "BEGIN ISOLATION LEVEL SERIALIZABLE" None] |} =
  (Returns tt,
   {| transactionDepth := 0;
      client := [CallQuery "BEGIN ISOLATION LEVEL SERIALIZABLE" None] |}).
Proof.
  refine (proj1 (hooks_issue_no_sql acceptingDriver (Some "SERIALIZABLE")
                   newAdapter builtTransaction
                   {| transactionDepth := 1;
                      client := [CallQuery "BEGIN ISOLATION LEVEL SERIALIZABLE"
                                           None] |}
                   _ _)).
  reflexivity.
Defined.

(** C9. The release callback is not one-shot. Each [commit()] or
    [rollback()] on a transaction returned by [startTransaction] lowers the
    adapter's depth by exactly one, with no guard: [k] terminal calls on the
    same transaction, in any mix, lower it by [k], also below zero, and
    every one of them resolves. *)
Theorem release_not_one_shot driver isolationLevel a tx a' :
  startTransaction driver isolationLevel a = (Returns tx, a') ->
  forall (hooks : list Terminal) (b : MyAdapter),
    (forall h, transactionDepth (snd (terminal h tx b)) = transactionDepth b - 1) /\
    terminals ((fun h => (h, tx)) <$> hooks) b =
      (Returns tt,
       {| transactionDepth := transactionDepth b - Z.of_nat (length hooks);
          client := client b |}).
Proof.
  intros Hstart hooks b. apply startTransaction_Returns in Hstart as [-> _].
  split.
  - intros h. rewrite terminal_unfold. reflexivity.
  - rewrite terminals_decrement.
    + rewrite length_fmap. reflexivity.
    + apply Forall_fmap, Forall_forall. intros h _. reflexivity.
Qed.

Lemma release_not_one_shot_witness :
  terminals ((fun h => (h, builtTransaction)) <$> [Commit; Rollback; Commit])
            {| transactionDepth := 1; client := [CallQuery "BEGIN" None] |} =
  (Returns tt, {| transactionDepth := -2; client := [CallQuery "BEGIN" None] |}).
Proof.
  apply (release_not_one_shot acceptingDriver None newAdapter builtTransaction
           {| transactionDepth := 1; client := [CallQuery "BEGIN" None] |}
           eq_refl [Commit; Rollback; Commit]).
Defined.

(** C10. Every transaction returned by a successful [startTransaction]
    carries the options [{ usePhantomQuery: false }], whatever the isolation
    level supplied and the depth at which it was started. The options are a
    field of the transaction value, set by the constructor; no method takes
    the transaction as state to transform (the hooks and the queries
    transform the adapter only), so they stay what they were. *)
Theorem options_fixed driver isolationLevel a tx a' :
  startTransaction driver isolationLevel a = (Returns tx, a') ->
  options tx = {| usePhantomQuery := false |}.
Proof.
  intros Hstart. apply startTransaction_Returns in Hstart as [-> _].
  reflexivity.
Qed.

Lemma options_fixed_witness :
  options builtTransaction = {| usePhantomQuery := false |}.
Proof.
  apply (options_fixed acceptingDriver (Some "REPEATABLE READ")
           {| transactionDepth := 2; client := [] |}
           builtTransaction
           {| transactionDepth := 3; client := [CallQuery "SAVEPOINT sp_3" None] |}).
  reflexivity.
Defined.

(** ** Failures of [startTransaction] *)

(** C3. When the native driver throws on the [BEGIN] or [SAVEPOINT]
    statement, [startTransaction] fails with the mapped error, and the
    adapter it leaves behind has the depth it had before the call: the
    increment is undone before the error is thrown. The statement itself
    did reach the connection. *)
Theorem failed_start_restores_depth driver isolationLevel a e :
  rejectedLevel isolationLevel = None ->
  driver (client a)
    (CallQuery (startSql isolationLevel (transactionDepth a + 1)) None) = Throws e ->
  startTransaction driver isolationLevel a =
    (Throws (DriverAdapterError (convertDriverError e)),
     {| transactionDepth := transactionDepth a;
        client := client a ++
          [CallQuery (startSql isolationLevel (transactionDepth a + 1)) None] |}).
Proof.
  intros Hlevel Hthrow. rewrite startTransaction_unfold, Hlevel.
  cbv zeta. rewrite Hthrow. do 2 f_equal. lia.
Qed.

Lemma failed_start_restores_depth_witness :
  startTransaction refusingDriver None {| transactionDepth := 1; client := [] |} =
    (Throws (DriverAdapterError
               (postgres "57P01" "ERROR" "terminating connection" None None None)),
     {| transactionDepth := 1; client := [CallQuery "SAVEPOINT sp_2" None] |}).
Proof.
  apply (failed_start_restores_depth refusingDriver None
           {| transactionDepth := 1; client := [] |}
           (ErrorInstance shutdownError)); reflexivity.
Defined.

(** C4. For every isolation level outside the allow-list,
    [startTransaction] fails with [InvalidIsolationLevel] carrying that
    level, and the adapter is left exactly as it was: same depth, and
    nothing sent to the native connection. *)
Theorem invalid_level_rejected driver (level : IsolationLevel) a :
  level ∉ validLevels ->
  startTransaction driver (Some level) a =
    (Throws (DriverAdapterError (InvalidIsolationLevel level)), a).
Proof.
  intros Hlevel. rewrite startTransaction_unfold. unfold rejectedLevel.
  destruct (decide (level ∈ validLevels)); [contradiction|reflexivity].
Qed.

Lemma invalid_level_rejected_witness :
  startTransaction acceptingDriver (Some "SNAPSHOT") newAdapter =
    (Throws (DriverAdapterError (InvalidIsolationLevel "SNAPSHOT")), newAdapter).
Proof.
  apply (invalid_level_rejected acceptingDriver "SNAPSHOT" newAdapter).
  vm_compute. intros H. discriminate H.
Defined.

(** ** Nested transactions *)

Lemma savepointCalls_S from n :
  savepointCalls from (S n) =
  CallQuery (savepointSql from) None :: savepointCalls (from + 1) n.
Proof.
  unfold savepointCalls. rewrite seqZ_cons by lia. cbn [fmap list_fmap].
  do 3 f_equal; lia.
Qed.

Lemma startSql_nested isolationLevel depth :
  1 < depth -> startSql isolationLevel depth = savepointSql depth.
Proof.
  intros Hd. unfold startSql. destruct (Z.eqb_spec depth 1); [lia|reflexivity].
Qed.

Lemma startAll_cons driver level rest a txs a1 :
  startAll driver (level :: rest) a = (Returns txs, a1) ->
  exists rest_txs,
    txs = builtTransaction :: rest_txs /\
    startAll driver rest
      {| transactionDepth := transactionDepth a + 1;
         client := client a ++
           [CallQuery (startSql level (transactionDepth a + 1)) None] |}
    = (Returns rest_txs, a1).
Proof.
  cbn [startAll]. unfold bind at 1.
  destruct (startTransaction driver level a) as [[tx|t] a'] eqn:Hstart;
    [|discriminate].
  apply startTransaction_Returns in Hstart as [-> ->].
  unfold bind, ret.
  destruct (startAll driver rest _) as [[rest_txs|t] a2]; [|discriminate].
  intros [= <- <-]. exists rest_txs. split; reflexivity.
Qed.

(** Starts made while a transaction is already open only add savepoints. *)
Lemma startAll_nested driver levels :
  forall a txs a1,
    1 <= transactionDepth a ->
    startAll driver levels a = (Returns txs, a1) ->
    a1 = {| transactionDepth := transactionDepth a + Z.of_nat (length levels);
            client := client a ++
              savepointCalls (transactionDepth a + 1) (length levels) |} /\
    Forall (fun tx => tx = builtTransaction) txs /\
    length txs = length levels.
Proof.
  induction levels as [|level rest IH]; intros a txs a1 Hdepth Hall.
  - cbn in Hall. injection Hall as <- <-. split; [|split].
    + destruct a as [d c]. cbn [transactionDepth client length].
      unfold savepointCalls. cbn. rewrite app_nil_r. f_equal. lia.
    + constructor.
    + reflexivity.
  - apply startAll_cons in Hall as (rest_txs & -> & Hrest).
    apply IH in Hrest as (-> & Htxs & Hlen); cbn [transactionDepth]; [|lia].
    cbn [transactionDepth client length]. rewrite savepointCalls_S.
    rewrite startSql_nested by lia. rewrite <- app_assoc. cbn [app].
    repeat split.
    + f_equal; try lia; repeat f_equal; lia.
    + constructor; [reflexivity|assumption].
    + f_equal. assumption.
Qed.

Lemma is_begin_beginSql isolationLevel bound :
  is_begin (CallQuery (beginSql isolationLevel) bound) = true /\
  is_savepoint (CallQuery (beginSql isolationLevel) bound) = false.
Proof.
  unfold beginSql. destruct (truthy_string isolationLevel); split; reflexivity.
Qed.

Lemma count_savepointCalls n : forall from,
  count_calls is_begin (savepointCalls from n) = 0%nat /\
  count_calls is_savepoint (savepointCalls from n) = n.
Proof.
  unfold count_calls. induction n as [|n IH]; intros from.
  - split; reflexivity.
  - rewrite savepointCalls_S. destruct (IH (from + 1)) as [Hb Hs].
    split.
    + cbn [List.filter]. 
      replace (is_begin (CallQuery (savepointSql from) None)) with false
        by reflexivity.
      exact Hb.
    + cbn [List.filter].
      replace (is_savepoint (CallQuery (savepointSql from) None)) with true
        by reflexivity.
      cbn [length]. f_equal. exact Hs.
Qed.

(** C2. On an adapter at depth 0, [N >= 1] nested [startTransaction] calls
    that all succeed, followed by [N] terminal calls ([commit] or
    [rollback], in any mix) made in strict LIFO order, leave the depth at 0.
    The statements sent are one [BEGIN] (with the isolation clause of the
    first call, if it had one) followed by [SAVEPOINT sp_2], ...,
    [SAVEPOINT sp_N]: the k-th start, for [k >= 2], sends [SAVEPOINT sp_k].
    That is exactly one [BEGIN] and [N - 1] [SAVEPOINT]s, all of them sent by
    the starts: the terminal calls leave the connection's trace untouched. *)
Theorem nested_lifo_depth driver level rest (hooks : list Terminal) a txs a1 :
  transactionDepth a = 0 ->
  startAll driver (level :: rest) a = (Returns txs, a1) ->
  length hooks = length (level :: rest) ->
  let issued := CallQuery (beginSql level) None :: savepointCalls 2 (length rest) in
  let final := terminals (zip hooks (reverse txs)) a1 in
  fst final = Returns tt /\
  transactionDepth (snd final) = 0 /\
  client a1 = client a ++ issued /\
  client (snd final) = client a1 /\
  count_calls is_begin issued = 1%nat /\
  count_calls is_savepoint issued = length rest.
Proof.
  intros Hzero Hall Hhooks issued final.
  apply startAll_cons in Hall as (rest_txs & -> & Hrest).
  apply startAll_nested in Hrest as (-> & Htxs & Hlen);
    cbn [transactionDepth client] in *; [|lia].
  assert (Hsteps : Forall (fun step => snd step = builtTransaction)
                     (zip hooks (reverse (builtTransaction :: rest_txs)))).
  { apply Forall_forall. intros [h tx] Hin. cbn.
    apply elem_of_zip_r in Hin. rewrite elem_of_reverse in Hin.
    apply elem_of_cons in Hin as [->|Hin]; [reflexivity|].
    rewrite Forall_forall in Htxs. apply Htxs, Hin. }
  assert (Hcount : length (zip hooks (reverse (builtTransaction :: rest_txs)))
                   = S (length rest)).
  { rewrite length_zip, length_reverse. cbn [length] in *. lia. }
  subst final. rewrite (terminals_decrement _ Hsteps).
  cbn [fst snd transactionDepth client]. rewrite Hcount, Hzero.
  replace (0 + 1 + 1) with 2 by lia.
  unfold startSql. cbn [Z.eqb Z.add Pos.eqb].
  rewrite <- app_assoc. cbn [app].
  subst issued. unfold count_calls. cbn [List.filter].
  destruct (is_begin_beginSql level None) as [-> ->].
  destruct (count_savepointCalls (length rest) 2) as [Hb Hs].
  unfold count_calls in Hb, Hs. cbn [length]. rewrite Hb, Hs.
  repeat split; lia.
Qed.

Lemma nested_lifo_depth_witness :
  let issued := [CallQuery "BEGIN ISOLATION LEVEL SERIALIZABLE" None;
                 CallQuery "SAVEPOINT sp_2" None;
                 CallQuery "SAVEPOINT sp_3" None] in
  let a1 := {| transactionDepth := 3; client := issued |} in
  let final :=
    terminals (zip [Commit; Rollback; Commit]
                   (reverse [builtTransaction; builtTransaction; builtTransaction]))
              a1 in
  fst final = Returns tt /\
  transactionDepth (snd final) = 0 /\
  client a1 = client newAdapter ++ issued /\
  client (snd final) = client a1 /\
  count_calls is_begin issued = 1%nat /\
  count_calls is_savepoint issued = 2%nat.
Proof.
  apply (nested_lifo_depth acceptingDriver (Some "SERIALIZABLE")
           [None; Some "READ COMMITTED"] [Commit; Rollback; Commit] newAdapter
           [builtTransaction; builtTransaction; builtTransaction]
           {| transactionDepth := 3;
              client := [CallQuery "BEGIN ISOLATION LEVEL SERIALIZABLE" None;
                         CallQuery "SAVEPOINT sp_2" None;
                         CallQuery "SAVEPOINT sp_3" None] |});
    reflexivity.
Defined.

(** ** Value mappers *)

Lemma map_from_Returns {A B} (f : A -> nat -> Completion B) xs :
  forall i ys,
    map_from f i xs = Returns ys ->
    length ys = length xs /\
    forall (k : nat) x,
      xs !! k = Some x ->
      exists y, ys !! k = Some y /\ f x (i + k)%nat = Returns y.
Proof.
  induction xs as [|x xs IH]; intros i ys Hmap; cbn in Hmap.
  - injection Hmap as <-. split; [reflexivity|]. intros k x Hk. discriminate.
  - destruct (f x i) as [y|t] eqn:Hx; [|discriminate].
    destruct (map_from f (S i) xs) as [ys'|t] eqn:Hrest; [|discriminate].
    injection Hmap as <-. destruct (IH _ _ Hrest) as [Hlen Hpoint].
    split; [cbn; f_equal; exact Hlen|].
    intros [|k] x' Hk; cbn in Hk.
    + injection Hk as <-. exists y. rewrite Nat.add_0_r. split; [reflexivity|exact Hx].
    + destruct (Hpoint k x' Hk) as (y' & Hy' & Hf). exists y'.
      split; [exact Hy'|]. rewrite <- Hf. f_equal. lia.
Qed.

Lemma map_from_Throws {A B} (f : A -> nat -> Completion B) xs :
  forall i t,
    map_from f i xs = Throws t ->
    exists (k : nat) x, xs !! k = Some x /\ f x (i + k)%nat = Throws t.
Proof.
  induction xs as [|x xs IH]; intros i t Hmap; cbn in Hmap; [discriminate|].
  destruct (f x i) as [y|t'] eqn:Hx.
  - destruct (map_from f (S i) xs) as [ys'|t'] eqn:Hrest; [discriminate|].
    injection Hmap as <-. destruct (IH _ _ Hrest) as (k & x' & Hk & Hf).
    exists (S k), x'. split; [exact Hk|]. rewrite <- Hf. f_equal. lia.
  - injection Hmap as <-. exists 0%nat, x. rewrite Nat.add_0_r.
    split; [reflexivity|exact Hx].
Qed.

Lemma map_from_pointwise {A B} (f : A -> nat -> Completion B) xs :
  forall i ys,
    length ys = length xs ->
    (forall (k : nat) x,
       xs !! k = Some x ->
       exists y, ys !! k = Some y /\ f x (i + k)%nat = Returns y) ->
    map_from f i xs = Returns ys.
Proof.
  induction xs as [|x xs IH]; intros i ys Hlen Hpoint.
  - destruct ys; [reflexivity|discriminate].
  - destruct ys as [|y ys]; [discriminate|]. cbn [map_from].
    destruct (Hpoint 0%nat x eq_refl) as (y' & [= <-] & Hx).
    rewrite Nat.add_0_r in Hx. rewrite Hx.
    rewrite (IH (S i) ys); [reflexivity|cbn in Hlen; lia|].
    intros k x' Hk. destruct (Hpoint (S k) x' Hk) as (y' & Hy' & Hf).
    exists y'. split; [exact Hy'|]. rewrite <- Hf. f_equal. lia.
Qed.

Lemma map_from_total {A B} (f : A -> nat -> Completion B) xs :
  forall i,
    (forall (k : nat) x, xs !! k = Some x -> exists y, f x (i + k)%nat = Returns y) ->
    exists ys, map_from f i xs = Returns ys.
Proof.
  induction xs as [|x xs IH]; intros i Hall.
  - exists []. reflexivity.
  - cbn [map_from]. destruct (Hall 0%nat x eq_refl) as [y Hx].
    rewrite Nat.add_0_r in Hx. rewrite Hx.
    destruct (IH (S i)) as [ys Hys].
    + intros k x' Hk. destruct (Hall (S k) x' Hk) as [y' Hf].
      exists y'. rewrite <- Hf. f_equal. lia.
    + rewrite Hys. eexists. reflexivity.
Qed.

Lemma map_from_ext {A B} (f g : A -> nat -> Completion B) xs :
  forall i,
    (forall (k : nat) x, xs !! k = Some x -> f x (i + k)%nat = g x (i + k)%nat) ->
    map_from f i xs = map_from g i xs.
Proof.
  induction xs as [|x xs IH]; intros i Hext; [reflexivity|].
  cbn [map_from]. pose proof (Hext 0%nat x eq_refl) as Hx.
  rewrite Nat.add_0_r in Hx. rewrite Hx.
  rewrite (IH (S i)); [reflexivity|].
  intros k x' Hk. pose proof (Hext (S k) x' Hk) as Hf.
  replace (S i + k)%nat with (i + S k)%nat by lia. exact Hf.
Qed.

Lemma mapRow_Returns P row columnTypes out :
  mapRow P row columnTypes = Returns out ->
  length out = length row /\
  forall (i : nat) v,
    row !! i = Some v ->
    exists o, out !! i = Some o /\ mapCell P v (columnTypes !! i) = Returns o.
Proof.
  intros Hmap. unfold mapRow in Hmap.
  apply map_from_Returns in Hmap as [Hlen Hpoint].
  split; [exact Hlen|]. intros i v Hv.
  destruct (Hpoint i v Hv) as (o & Ho & Hf). exists o. split; assumption.
Qed.

(** C7, as the code has it. For the value [v] at index [i] of a row,
    paired with the column type at that index, one turn of the loop gives:
    logical null for a native null ([null], or [undefined] for an absent
    value); the decimal text of a bigint, from which the bigint can be read
    back; the ISO-8601 text of a valid Date, and a thrown [RangeError] for
    the Invalid Date; for any other object in a column typed [Json], what
    [JSON.stringify] gives for it: its text, [undefined] when
    [JSON.stringify] returns [undefined], or what [JSON.stringify] throws;
    and the value itself in every other case. The mapped row has one value
    per input value, each the result of its own turn; row mapping returns
    when every turn returns and throws as soon as one throws. *)
Theorem mapRow_cases P row columnTypes (i : nat) (v : JsValue) :
  row !! i = Some v ->
  let turn := mapCell P v (columnTypes !! i) in
  (forall out,
     mapRow P row columnTypes = Returns out ->
     length out = length row /\
     exists o, out !! i = Some o /\ turn = Returns o) /\
  (forall t, turn = Throws t -> exists t', mapRow P row columnTypes = Throws t') /\
  ((forall (j : nat) u,
      row !! j = Some u -> exists o, mapCell P u (columnTypes !! j) = Returns o) ->
   exists out, mapRow P row columnTypes = Returns out) /\
  (nullish v = true -> turn = Returns VNull) /\
  (forall z, v = VBigInt z ->
     turn = Returns (VString (pretty z)) /\
     forall z', pretty z' = pretty z -> z' = z) /\
  (forall time, v = VDate (ValidDate time) ->
     turn = Returns (VString (toISOString P time))) /\
  (v = VDate InvalidDate -> turn = Throws RangeError_invalid_time) /\
  (typeof v = TyObject -> nullish v = false -> instanceof_Date v = false ->
   columnTypes !! i = Some ColumnTypeEnum.Json ->
   turn = and_then (JSON_stringify P v) (fun r => Returns (stringified r))) /\
  (nullish v = false -> typeof v <> TyBigint -> instanceof_Date v = false ->
   ~ (typeof v = TyObject /\ columnTypes !! i = Some ColumnTypeEnum.Json) ->
   turn = Returns v).
Proof.
  intros Hv turn.
  assert (Hrow : forall out,
            mapRow P row columnTypes = Returns out ->
            length out = length row /\
            exists o, out !! i = Some o /\ turn = Returns o).
  { intros out Hout. apply mapRow_Returns in Hout as [Hlen Hpoint].
    split; [exact Hlen|]. exact (Hpoint i v Hv). }
  split; [exact Hrow|].
  split.
  { intros t Ht. destruct (mapRow P row columnTypes) as [out|t'] eqn:Hmap.
    - destruct (Hrow out eq_refl) as (_ & o & _ & Ho). congruence.
    - exists t'. reflexivity. }
  split.
  { intros Hall. unfold mapRow. apply map_from_total.
    intros k x Hk. exact (Hall k x Hk). }
  subst turn. unfold mapCell.
  split; [|split; [|split; [|split; [|split]]]].
  - destruct v; try discriminate; reflexivity.
  - intros z ->. split; [reflexivity|].
    intros z' Hz. exact (pretty_Z_inj _ _ Hz).
  - intros time ->. reflexivity.
  - intros ->. reflexivity.
  - intros Hobj Hnull Hdate ->.
    destruct v; try discriminate; reflexivity.
  - intros Hnull Hbig Hdate Hjson.
    destruct v; try discriminate; try (exfalso; apply Hbig; reflexivity);
      cbn [or_null nullish typeof];
      (destruct (columnTypes !! i) as [c|]; [|reflexivity]);
      try reflexivity;
      (destruct (Z.eqb_spec c ColumnTypeEnum.Json) as [->|]; [|reflexivity]);
      exfalso; apply Hjson; split; reflexivity.
Qed.

Lemma mapRow_cases_witness :
  mapCell examplePlatform (VBigInt 9223372036854775807) (Some 1) =
    Returns (VString "9223372036854775807") /\
  exists out,
    mapRow examplePlatform [VString "a"; VBigInt 9223372036854775807] [7; 1] =
    Returns out.
Proof.
  destruct (mapRow_cases examplePlatform
              [VString "a"; VBigInt 9223372036854775807] [7; 1] 1
              (VBigInt 9223372036854775807) eq_refl)
    as (_ & _ & Htotal & _ & Hbig & _).
  split; [exact (proj1 (Hbig _ eq_refl))|].
  apply Htotal. intros [|[|j]] u Hu; try discriminate;
    injection Hu as <-; eexists; reflexivity.
Defined.

(** C7 fails as stated: a row that holds the Invalid Date is not mapped to
    ISO-8601 text, row mapping throws a [RangeError]; and on a platform
    whose [JSON.stringify] throws on a bigint, as the real one does, an
    object holding a bigint in a column typed [Json] is not mapped to text
    either, row mapping throws the [TypeError]. *)
Lemma mapRow_throws_on_invalid_date :
  mapRow examplePlatform [VString "a"; VDate InvalidDate]
    [ColumnTypeEnum.Text; ColumnTypeEnum.DateTime] =
    Throws RangeError_invalid_time /\
  mapRow examplePlatform [VObject [("a", VBigInt 1)]] [ColumnTypeEnum.Json] =
    Throws TypeError_bigint.
Proof. split; reflexivity. Qed.

(** C8. Argument mapping is idempotent: [mapArg(mapArg(v, t), t)] is
    [mapArg(v, t)] for every value and type hint (and throws what the inner
    call throws when that one throws). So whenever [mapArg] returns a
    value, mapping that value again returns it unchanged; and a value that
    is neither [undefined], nor a string, nor a boolean is already in native
    form and passes through as it is. *)
Theorem mapArg_idempotent P arg argType :
  and_then (mapArg P arg argType) (fun mapped => mapArg P mapped argType) =
    mapArg P arg argType /\
  (forall mapped,
     mapArg P arg argType = Returns mapped ->
     mapArg P mapped argType = Returns mapped) /\
  (typeof arg <> TyUndefined -> typeof arg <> TyString ->
   typeof arg <> TyBoolean ->
   mapArg P arg argType = Returns arg).
Proof.
  assert (Hagain : forall mapped,
            mapArg P arg argType = Returns mapped ->
            mapArg P mapped argType = Returns mapped).
  { intros mapped Hmap. unfold mapArg in Hmap.
    destruct arg; try (injection Hmap as <-; reflexivity).
    - destruct (targetIsSQLite P) eqn:Hsqlite; injection Hmap as <-;
        [reflexivity|]. cbn. rewrite Hsqlite. reflexivity.
    - destruct (scalarType argType) eqn:Hscalar;
        try (injection Hmap as <-; cbn; rewrite ?Hscalar; reflexivity).
      destruct (BigInt P s); [|discriminate].
      injection Hmap as <-. reflexivity. }
  split; [|split].
  - destruct (mapArg P arg argType) as [mapped|t] eqn:Hmap; [|reflexivity].
    cbn. apply Hagain. reflexivity.
  - exact Hagain.
  - intros Hundef Hstr Hbool. destruct arg; try reflexivity; contradiction.
Qed.

Lemma mapArg_idempotent_witness :
  mapArg examplePlatform (VBigInt 9007199254740993)
    {| scalarType := ScalarBigint; dbType := None; arity := ArityScalar |} =
  Returns (VBigInt 9007199254740993).
Proof.
  destruct (mapArg_idempotent examplePlatform (VString "9007199254740993")
              {| scalarType := ScalarBigint; dbType := None;
                 arity := ArityScalar |}) as (_ & Hagain & _).
  apply Hagain. vm_compute. reflexivity.
Defined.

(** ** Error mapper *)

Lemma code_is_true e c : code_is e c = true <-> code e = Some c.
Proof.
  unfold code_is. destruct (code e) as [c'|]; [|split; discriminate].
  rewrite String.eqb_eq. split; congruence.
Qed.

Lemma code_is_false e c : code_is e c = false <-> code e <> Some c.
Proof.
  rewrite <- code_is_true. destruct (code_is e c); split; congruence.
Qed.

Lemma not_in_errorTable e :
  ~ in_errorTable (code e) ->
  code_is e "23505" = false /\ code_is e "23502" = false /\
  code_is e "23503" = false /\ code_is e "42P01" = false.
Proof.
  intros Hnot.
  assert (Hall : forall c kind, (c, kind) ∈ errorTable -> code_is e c = false).
  { intros c kind Hin. apply code_is_false. intros Hc. apply Hnot.
    exists c, kind. split; assumption. }
  unfold errorTable in Hall.
  repeat split;
    [apply (Hall _ UniqueConstraintViolation)
    |apply (Hall _ NullConstraintViolation)
    |apply (Hall _ ForeignKeyConstraintViolation)
    |apply (Hall _ TableDoesNotExist)]; set_solver.
Qed.

(** C6, as the code has it. [convertDriverError] is a function, so every
    thrown value gets exactly one [MappedError]: an [Error] whose code is in
    the table gets the kind listed for it; any other [Error] named
    [SQLiteError] gets the [sqlite] passthrough with its [errno] ([1] when
    it has none) and its message, whatever its code; any other [Error] with
    a non-empty code gets the [postgres] passthrough with that code and the
    message; everything else (an [Error] with no code or an empty one, a
    value that is not an [Error]) gets the generic fallback. *)
Theorem convertDriverError_cases (error : Thrown) :
  (forall e c kind,
     as_Error error = Some e -> code e = Some c -> (c, kind) ∈ errorTable ->
     convertDriverError error = kind) /\
  (forall e,
     as_Error error = Some e -> ~ in_errorTable (code e) ->
     name e = "SQLiteError" ->
     convertDriverError error = sqlite (default 1 (errno e)) (message e)) /\
  (forall e c,
     as_Error error = Some e -> ~ in_errorTable (code e) ->
     name e <> "SQLiteError" -> code e = Some c -> c <> "" ->
     convertDriverError error = postgres c "ERROR" (message e) None None None) /\
  (forall e,
     as_Error error = Some e ->
     name e <> "SQLiteError" -> code e = None \/ code e = Some "" ->
     convertDriverError error = GenericJs 0) /\
  (as_Error error = None -> convertDriverError error = GenericJs 0).
Proof.
  unfold convertDriverError. repeat split.
  - intros e c kind -> Hc Hin. unfold code_is. rewrite Hc.
    unfold errorTable in Hin.
    repeat (apply elem_of_cons in Hin as [[= -> ->]|Hin]; [reflexivity|]).
    apply elem_of_nil in Hin. contradiction.
  - intros e -> Hnot Hname.
    destruct (not_in_errorTable e Hnot) as (-> & -> & -> & ->).
    rewrite Hname. reflexivity.
  - intros e c -> Hnot Hname Hc Hne.
    destruct (not_in_errorTable e Hnot) as (-> & -> & -> & ->).
    apply String.eqb_neq in Hname. rewrite Hname, Hc. cbn.
    apply String.eqb_neq in Hne. rewrite Hne. reflexivity.
  - intros e -> Hname Hc. apply String.eqb_neq in Hname.
    unfold code_is. rewrite Hname. destruct Hc as [-> | ->]; reflexivity.
  - intros ->. reflexivity.
Qed.

(** C6 fails as stated: an [SQLiteError] that carries the code
    [SQLITE_BUSY], which is not in the table, is mapped to a passthrough
    that holds the default extended code [1] and not the code it came with. *)
Lemma convertDriverError_drops_code :
  let busy := {| name := "SQLiteError"; message := "database is locked";
                 code := Some "SQLITE_BUSY"; errno := None |} in
  ~ in_errorTable (code busy) /\
  convertDriverError (ErrorInstance busy) = sqlite 1 "database is locked".
Proof.
  split; [|reflexivity].
  intros (c & kind & [= <-] & Hin). unfold errorTable in Hin.
  repeat (apply elem_of_cons in Hin as [[= ]|Hin]).
  apply elem_of_nil in Hin. contradiction.
Qed.

Lemma convertDriverError_cases_witness :
  convertDriverError (ErrorInstance shutdownError) =
  postgres "57P01" "ERROR" "terminating connection" None None None.
Proof.
  destruct (convertDriverError_cases (ErrorInstance shutdownError))
    as (_ & _ & Hpostgres & _).
  apply (Hpostgres shutdownError "57P01" eq_refl); try reflexivity;
    try discriminate.
  intros (c & kind & [= <-] & Hin). unfold errorTable in Hin.
  repeat (apply elem_of_cons in Hin as [[= ]|Hin]).
  apply elem_of_nil in Hin. contradiction.
Defined.

(** ** Disposal *)

Lemma executeRaw_unfold P driver query a :
  executeRaw P driver query a =
  match mapArgs P query with
  | Throws t => (Throws (DriverAdapterError (convertDriverError t)), a)
  | Returns bound =>
      let call := CallQuery (sql query) (Some bound) in
      (match driver (client a) call with
       | Returns result => Returns (default 0 (affectedRows result))
       | Throws e => Throws (DriverAdapterError (convertDriverError e))
       end,
       {| transactionDepth := transactionDepth a; client := client a ++ [call] |})
  end.
Proof.
  unfold executeRaw, try_catch, bind, lift, client_query, onError, throw, ret.
  destruct (mapArgs P query); [|reflexivity].
  cbv zeta. destruct (driver (client a) _); reflexivity.
Qed.

Lemma queryRaw_unfold P driver query a :
  queryRaw P driver query a =
  match mapArgs P query with
  | Throws t => (Throws (DriverAdapterError (convertDriverError t)), a)
  | Returns bound =>
      let call := CallQuery (sql query) (Some bound) in
      (match driver (client a) call with
       | Returns result =>
           match resultSetOf P result with
           | Returns resultSet => Returns resultSet
           | Throws t => Throws (DriverAdapterError (convertDriverError t))
           end
       | Throws e => Throws (DriverAdapterError (convertDriverError e))
       end,
       {| transactionDepth := transactionDepth a; client := client a ++ [call] |})
  end.
Proof.
  unfold queryRaw, resultSetOf, try_catch, bind, lift, client_query, onError,
    throw, ret, and_then.
  destruct (mapArgs P query); [|reflexivity].
  cbv zeta. destruct (driver (client a) _) as [result|e]; [|reflexivity].
  destruct (columnNamesOf P result); [|reflexivity].
  destruct (columnTypesOf P result); [|reflexivity].
  destruct (map_from _ _ _); reflexivity.
Qed.

(** C5, as the code has it. [dispose()] only calls [close()] on the native
    connection; the adapter keeps no record of it and has no "closed"
    failure of its own. After [dispose()] has completed, [startTransaction]
    (with an allowed isolation level), [queryRaw] and [executeRaw] (once
    their arguments are mapped) still send their statement to the native
    connection, and the driver's answer to that call decides: when the
    driver throws, each of them fails with the mapped native error; when it
    returns, [startTransaction] and [executeRaw] resolve. *)
Theorem operations_after_dispose P driver a a1 :
  dispose driver a = (Returns tt, a1) ->
  a1 = {| transactionDepth := transactionDepth a;
          client := client a ++ [CallClose] |} /\
  (forall level,
     rejectedLevel level = None ->
     let call := CallQuery (startSql level (transactionDepth a1 + 1)) None in
     client (snd (startTransaction driver level a1)) = client a1 ++ [call] /\
     fst (startTransaction driver level a1) =
       match driver (client a1) call with
       | Returns _ => Returns builtTransaction
       | Throws e => Throws (DriverAdapterError (convertDriverError e))
       end) /\
  (forall query bound,
     mapArgs P query = Returns bound ->
     let call := CallQuery (sql query) (Some bound) in
     client (snd (queryRaw P driver query a1)) = client a1 ++ [call] /\
     client (snd (executeRaw P driver query a1)) = client a1 ++ [call] /\
     (forall e,
        driver (client a1) call = Throws e ->
        fst (queryRaw P driver query a1) =
          Throws (DriverAdapterError (convertDriverError e)) /\
        fst (executeRaw P driver query a1) =
          Throws (DriverAdapterError (convertDriverError e))) /\
     (forall result,
        driver (client a1) call = Returns result ->
        fst (executeRaw P driver query a1) =
          Returns (default 0 (affectedRows result)))).
Proof.
  intros Hdispose. unfold dispose, client_close in Hdispose.
  injection Hdispose as _ <-.
  split; [reflexivity|]. split.
  - intros level Hlevel call. rewrite startTransaction_unfold, Hlevel.
    cbv zeta. fold call. destruct (driver _ call); split; reflexivity.
  - intros query bound Hbound call.
    rewrite queryRaw_unfold, executeRaw_unfold, Hbound. cbv zeta. fold call.
    split; [reflexivity|]. split; [reflexivity|]. split.
    + intros e ->. split; reflexivity.
    + intros result ->. reflexivity.
Qed.

Lemma operations_after_dispose_witness :
  let a1 := {| transactionDepth := 0; client := [CallClose] |} in
  client (snd (startTransaction closableDriver None a1)) =
    [CallClose; CallQuery "BEGIN" None] /\
  fst (startTransaction closableDriver None a1) =
    Throws (DriverAdapterError (GenericJs 0)).
Proof.
  intros a1.
  destruct (operations_after_dispose examplePlatform closableDriver
              newAdapter a1 eq_refl) as (_ & Hstart & _).
  destruct (Hstart None eq_refl) as [Hsent Hresult].
  split; [exact Hsent | exact Hresult].
Defined.

(** C5 fails as stated: after a [dispose()] that completed,
    [startTransaction] on a driver that accepts the call sends [BEGIN] to
    the connection that was closed, and resolves with a transaction. *)
Lemma dispose_then_start_reaches_connection :
  let disposed := dispose acceptingDriver newAdapter in
  let started := startTransaction acceptingDriver None (snd disposed) in
  fst disposed = Returns tt /\
  fst started = Returns builtTransaction /\
  client (snd started) = [CallClose; CallQuery "BEGIN" None].
Proof. repeat split. Qed.

(** * Further properties of the adapter *)

(** ** Argument lists *)

Lemma mapArg_Throws P arg argType t :
  mapArg P arg argType = Throws t ->
  exists s, arg = VString s /\ scalarType argType = ScalarBigint /\
            BigInt P s = None /\ t = BigInt_SyntaxError s.
Proof.
  unfold mapArg. destruct arg; try discriminate.
  - destruct (targetIsSQLite P); discriminate.
  - destruct (scalarType argType); try discriminate.
    destruct (BigInt P s) eqn:Hbig; [discriminate|].
    intros [= <-]. exists s. repeat split. exact Hbig.
Qed.

(** X1. The bound arguments [queryRaw] and [executeRaw] pass to the driver
    are the arguments of the query mapped one by one, each with the type
    hint at its own index, or with the [unknown] scalar hint when the list
    of hints is too short; there are as many of them as arguments. *)
Theorem mapArgs_pointwise P query bound :
  mapArgs P query = Returns bound ->
  length bound = length (args query) /\
  forall (i : nat) arg,
    args query !! i = Some arg ->
    exists v,
      bound !! i = Some v /\
      mapArg P arg (default unknownArg (argTypes query !! i)) = Returns v.
Proof.
  intros Hmap. unfold mapArgs in Hmap.
  apply map_from_Returns in Hmap as [Hlen Hpoint].
  split; [exact Hlen|]. intros i arg Hi.
  destruct (Hpoint i arg Hi) as (v & Hv & Hf). exists v. split; assumption.
Qed.

Lemma mapArgs_pointwise_witness :
  length [VNumber (number_of_Z 7); VNull] = 2%nat /\
  exists v,
    [VNumber (number_of_Z 7); VNull] !! 1%nat = Some v /\
    mapArg examplePlatform VUndefined unknownArg = Returns v.
Proof.
  destruct (mapArgs_pointwise examplePlatform
              {| sql := "SELECT ?, ?"; args := [VString "7"; VUndefined];
                 argTypes := [{| scalarType := ScalarInt; dbType := None;
                                 arity := ArityScalar |}] |}
              [VNumber (number_of_Z 7); VNull])
    as [Hlen Hpoint]; [vm_compute; reflexivity|].
  split; [exact Hlen|]. exact (Hpoint 1%nat VUndefined eq_refl).
Defined.

(** X2. No [undefined] reaches the driver: the bound arguments never
    contain [undefined], and on SQLite they never contain a boolean. *)
Theorem bound_args_defined P query bound :
  mapArgs P query = Returns bound ->
  (VUndefined ∉ bound) /\
  (targetIsSQLite P = true -> forall b, VBool b ∉ bound).
Proof.
  intros Hmap. unfold mapArgs in Hmap.
  apply map_from_Returns in Hmap as [Hlen Hpoint].
  assert (Hsrc : forall v, v ∈ bound ->
            exists arg argType, mapArg P arg argType = Returns v).
  { intros v Hin. apply list_elem_of_lookup in Hin as [i Hi].
    destruct (args query !! i) as [arg|] eqn:Harg.
    - destruct (Hpoint i arg Harg) as (y & Hy & Hf).
      rewrite Hi in Hy. injection Hy as <-. eauto.
    - apply lookup_ge_None in Harg. apply lookup_lt_Some in Hi. lia. }
  split.
  - intros Hin. destruct (Hsrc _ Hin) as (arg & argType & Hf).
    unfold mapArg in Hf. destruct arg; try discriminate.
    + destruct (targetIsSQLite P); discriminate.
    + destruct (scalarType argType); try discriminate.
      destruct (BigInt P s); discriminate.
  - intros Hsqlite b Hin. destruct (Hsrc _ Hin) as (arg & argType & Hf).
    unfold mapArg in Hf. rewrite Hsqlite in Hf.
    destruct arg; try discriminate.
    destruct (scalarType argType); try discriminate.
    destruct (BigInt P s); discriminate.
Qed.

Lemma bound_args_defined_witness :
  VUndefined ∉ [VNumber (number_of_Z 1); VNull].
Proof.
  refine (proj1 (bound_args_defined examplePlatform
            {| sql := "INSERT INTO t VALUES (?, ?)";
               args := [VBool true; VUndefined]; argTypes := [] |}
            [VNumber (number_of_Z 1); VNull] _)).
  vm_compute. reflexivity.
Defined.

(** X3. A query without type hints never fails in argument mapping: every
    argument is mapped with the [unknown] hint, and off SQLite the bound
    arguments are the arguments themselves with [undefined] turned into
    [null]. *)
Theorem mapArgs_no_hints P query :
  argTypes query = [] ->
  (exists bound, mapArgs P query = Returns bound) /\
  (targetIsSQLite P = false -> mapArgs P query = Returns (or_null <$> args query)).
Proof.
  intros Hhints. unfold mapArgs. rewrite Hhints.
  generalize 0%nat. induction (args query) as [|arg rest IH]; intros i.
  - split; [eexists; reflexivity|reflexivity].
  - destruct (IH (S i)) as [[bound Hbound] Hoff]. cbn [map_from].
    rewrite lookup_nil. cbn [default].
    assert (Harg : exists v, mapArg P arg unknownArg = Returns v /\
                     (targetIsSQLite P = false -> v = or_null arg)).
    { unfold mapArg, unknownArg. cbn [scalarType].
      destruct arg; try (eexists; split; [reflexivity|reflexivity]).
      destruct (targetIsSQLite P); eexists; split; try reflexivity; discriminate. }
    destruct Harg as (v & -> & Hv). rewrite Hbound.
    split; [eexists; reflexivity|].
    intros Hsqlite. pose proof (Hoff Hsqlite) as Hrest.
    rewrite Hbound in Hrest. injection Hrest as ->.
    rewrite (Hv Hsqlite). reflexivity.
Qed.

Lemma mapArgs_no_hints_witness :
  exists bound,
    mapArgs strictPlatform
      {| sql := "SELECT ?"; args := [VString "not a number"; VUndefined];
         argTypes := [] |} = Returns bound.
Proof.
  exact (proj1 (mapArgs_no_hints strictPlatform
                  {| sql := "SELECT ?"; args := [VString "not a number"; VUndefined];
                     argTypes := [] |} eq_refl)).
Defined.

(** ** Failures at the adapter boundary *)

Lemma mapArgs_Throws P query t :
  mapArgs P query = Throws t ->
  exists s, VString s ∈ args query /\ BigInt P s = None /\
            t = BigInt_SyntaxError s.
Proof.
  intros Hmap. unfold mapArgs in Hmap.
  apply map_from_Throws in Hmap as (k & arg & Hk & Hf).
  apply mapArg_Throws in Hf as (s & -> & _ & Hbig & ->).
  exists s. split; [|split; [exact Hbig|reflexivity]].
  apply list_elem_of_lookup. exists k. exact Hk.
Qed.

(** X4. Whatever [queryRaw], [executeRaw] or [startTransaction] throw is a
    [DriverAdapterError]: a value thrown by the driver or by the runtime
    never leaves these methods as it is. *)
Theorem failures_are_wrapped P driver a :
  (forall query t a',
     queryRaw P driver query a = (Throws t, a') ->
     exists m, t = DriverAdapterError m) /\
  (forall query t a',
     executeRaw P driver query a = (Throws t, a') ->
     exists m, t = DriverAdapterError m) /\
  (forall level t a',
     startTransaction driver level a = (Throws t, a') ->
     exists m, t = DriverAdapterError m).
Proof.
  split; [|split].
  - intros query t a'. rewrite queryRaw_unfold.
    destruct (mapArgs P query);
      [cbv zeta; destruct (driver _ _) as [result|e];
       [destruct (resultSetOf P result)|]|];
      intros [= <- _]; eauto.
  - intros query t a'. rewrite executeRaw_unfold.
    destruct (mapArgs P query); [cbv zeta; destruct (driver _ _)|];
      intros [= <- _]; eauto.
  - intros level t a'. rewrite startTransaction_unfold.
    destruct (rejectedLevel level); [|cbv zeta; destruct (driver _ _)];
      intros [= <- _]; eauto.
Qed.

Lemma failures_are_wrapped_witness :
  exists m,
    DriverAdapterError
      (postgres "57P01" "ERROR" "terminating connection" None None None) =
    DriverAdapterError m.
Proof.
  destruct (failures_are_wrapped examplePlatform refusingDriver newAdapter)
    as (_ & Hexecute & _).
  exact (Hexecute {| sql := "DELETE FROM t"; args := []; argTypes := [] |}
           _ _ eq_refl).
Defined.

(** X5. When an argument cannot be mapped (a string with the [bigint] hint
    that [BigInt] rejects), [queryRaw] and [executeRaw] fail with the
    generic error [GenericJs] with id [0], and the adapter is left as it
    was: the statement is not sent. *)
Theorem mapping_failure_sends_nothing P driver query a t :
  mapArgs P query = Throws t ->
  queryRaw P driver query a = (Throws (DriverAdapterError (GenericJs 0)), a) /\
  executeRaw P driver query a = (Throws (DriverAdapterError (GenericJs 0)), a).
Proof.
  intros Hmap. rewrite queryRaw_unfold, executeRaw_unfold, Hmap.
  apply mapArgs_Throws in Hmap as (s & _ & _ & ->).
  split; reflexivity.
Qed.

Lemma mapping_failure_sends_nothing_witness :
  executeRaw strictPlatform acceptingDriver
    {| sql := "UPDATE t SET n = ?"; args := [VString "12x"];
       argTypes := [{| scalarType := ScalarBigint; dbType := None;
                       arity := ArityScalar |}] |}
    newAdapter =
  (Throws (DriverAdapterError (GenericJs 0)), newAdapter).
Proof.
  refine (proj2 (mapping_failure_sends_nothing strictPlatform acceptingDriver
            {| sql := "UPDATE t SET n = ?"; args := [VString "12x"];
               argTypes := [{| scalarType := ScalarBigint; dbType := None;
                               arity := ArityScalar |}] |}
            newAdapter (BigInt_SyntaxError "12x") _)).
  reflexivity.
Defined.

(** X6. [queryRaw] and [executeRaw] never change the transaction depth,
    whether they resolve or fail, and each makes at most one call on the
    native connection. *)
Theorem queries_keep_depth P driver query a :
  let after_query := snd (queryRaw P driver query a) in
  let after_execute := snd (executeRaw P driver query a) in
  transactionDepth after_query = transactionDepth a /\
  transactionDepth after_execute = transactionDepth a /\
  exists sent,
    client after_query = client a ++ sent /\
    client after_execute = client a ++ sent /\
    (length sent <= 1)%nat.
Proof.
  cbv zeta. rewrite queryRaw_unfold, executeRaw_unfold.
  destruct (mapArgs P query) as [bound|t]; cbn.
  - split; [reflexivity|]. split; [reflexivity|].
    eexists. split; [reflexivity|]. split; [reflexivity|]. cbn. lia.
  - split; [reflexivity|]. split; [reflexivity|].
    exists []. rewrite app_nil_r. split; [reflexivity|].
    split; [reflexivity|]. cbn. lia.
Qed.

(** X7. The result set of a [queryRaw] that resolves has one row per
    native row, in the same order; each is the row mapping of its native
    row under the result set's own column types, and as long as that row.
    The result set never carries a [lastInsertId]. *)
Theorem queryRaw_result_shape P driver query a resultSet a' :
  queryRaw P driver query a = (Returns resultSet, a') ->
  exists bound result,
    mapArgs P query = Returns bound /\
    driver (client a) (CallQuery (sql query) (Some bound)) = Returns result /\
    lastInsertId resultSet = None /\
    length (rows resultSet) = length (resultRows result) /\
    Forall2 (fun mapped native =>
               mapRow P native (columnTypes resultSet) = Returns mapped /\
               length mapped = length native)
            (rows resultSet) (resultRows result).
Proof.
  rewrite queryRaw_unfold.
  destruct (mapArgs P query) as [bound|t]; [|discriminate].
  cbv zeta.
  destruct (driver (client a) _) as [result|t] eqn:Hdriver; [|discriminate].
  unfold resultSetOf, and_then.
  destruct (columnNamesOf P result) as [names|t]; [|discriminate].
  destruct (columnTypesOf P result) as [types|t]; [|discriminate].
  destruct (map_from _ _ _) as [mapped|t] eqn:Hrows; [|discriminate].
  intros [= <- _]. exists bound, result.
  split; [reflexivity|]. split; [exact Hdriver|].
  cbn [lastInsertId rows columnTypes]. split; [reflexivity|].
  apply map_from_Returns in Hrows as [Hlen Hpoint].
  split; [exact Hlen|].
  apply Forall2_same_length_lookup. split; [exact Hlen|].
  intros i out native Hout Hnative.
  destruct (Hpoint i native Hnative) as (out' & Hout' & Hmap).
  rewrite Hout in Hout'. injection Hout' as <-.
  split; [exact Hmap|]. apply mapRow_Returns in Hmap as [Hl _]. exact Hl.
Qed.

Lemma queryRaw_result_shape_witness :
  exists bound result,
    mapArgs examplePlatform
      {| sql := "SELECT id, payload FROM t"; args := []; argTypes := [] |} =
      Returns bound /\
    oneRowDriver [] (CallQuery "SELECT id, payload FROM t" (Some bound)) =
      Returns result /\
    @None string = None /\
    length [[VString "9007199254740993"; VString "{}"]] =
      length (resultRows result) /\
    Forall2 (fun mapped native =>
               mapRow examplePlatform native
                 [ColumnTypeEnum.Int64; ColumnTypeEnum.Json] = Returns mapped /\
               length mapped = length native)
            [[VString "9007199254740993"; VString "{}"]] (resultRows result).
Proof.
  exact (queryRaw_result_shape examplePlatform oneRowDriver
           {| sql := "SELECT id, payload FROM t"; args := []; argTypes := [] |}
           newAdapter
           {| columnNames := ["id"; "payload"];
              columnTypes := [ColumnTypeEnum.Int64; ColumnTypeEnum.Json];
              rows := [[VString "9007199254740993"; VString "{}"]];
              lastInsertId := None |}
           {| transactionDepth := 0;
              client := [CallQuery "SELECT id, payload FROM t" (Some [])] |}
           eq_refl).
Defined.

(** X8. [dispose] has no error mapping: when the driver throws on
    [close()], [dispose] throws that very value, unwrapped; either way the
    depth is what it was and the only call made is the [close()]. *)
Theorem dispose_failure_unwrapped driver a :
  snd (dispose driver a) =
    {| transactionDepth := transactionDepth a;
       client := client a ++ [CallClose] |} /\
  forall t,
    fst (dispose driver a) = Throws t <->
    driver (client a) CallClose = Throws t.
Proof.
  unfold dispose, client_close. cbn [fst snd].
  split; [reflexivity|]. intros t.
  destruct (driver (client a) CallClose) as [r|t']; split;
    intros H; try discriminate; injection H as ->; reflexivity.
Qed.

(** ** The statement a start sends *)

Lemma valid_level_truthy (level : IsolationLevel) :
  level ∈ validLevels -> truthy_string (Some level) = true.
Proof.
  unfold validLevels. intros Hin.
  repeat (apply elem_of_union in Hin as [Hin|Hin]);
    apply elem_of_singleton in Hin; subst level; reflexivity.
Qed.

Lemma startSql_nested_or_negative level depth :
  depth <> 0 -> startSql level (depth + 1) = savepointSql (depth + 1).
Proof.
  intros Hd. unfold startSql. destruct (Z.eqb_spec (depth + 1) 1); [lia|reflexivity].
Qed.

Lemma is_begin_savepointSql depth bound :
  is_begin (CallQuery (savepointSql depth) bound) = false.
Proof. reflexivity. Qed.

(** X9. [startTransaction] with an allowed level opens with [BEGIN]
    exactly when the depth it finds is 0. At any other depth, a negative
    one included (after a transaction was released twice), it sends
    [SAVEPOINT sp_<depth + 1>]. *)
Theorem begin_only_from_depth_zero driver level a :
  rejectedLevel level = None ->
  exists statement,
    client (snd (startTransaction driver level a)) =
      client a ++ [CallQuery statement None] /\
    (is_begin (CallQuery statement None) = true <-> transactionDepth a = 0) /\
    (transactionDepth a <> 0 ->
     statement = savepointSql (transactionDepth a + 1)).
Proof.
  intros Hlevel. exists (startSql level (transactionDepth a + 1)).
  split.
  - rewrite startTransaction_unfold, Hlevel. cbv zeta.
    destruct (driver (client a) _); reflexivity.
  - unfold startSql. destruct (Z.eqb_spec (transactionDepth a + 1) 1) as [H1|H1].
    + split; [|intros; lia].
      split; [intros; lia|]. intros _. apply is_begin_beginSql.
    + split; [|reflexivity].
      rewrite is_begin_savepointSql. split; [discriminate|lia].
Qed.

Lemma begin_only_from_depth_zero_witness :
  exists statement,
    client (snd (startTransaction acceptingDriver None
                   {| transactionDepth := -1; client := [] |})) =
      [] ++ [CallQuery statement None] /\
    (is_begin (CallQuery statement None) = true <-> -1 = 0) /\
    (-1 <> 0 -> statement = savepointSql (-1 + 1)).
Proof.
  exact (begin_only_from_depth_zero acceptingDriver None
           {| transactionDepth := -1; client := [] |} eq_refl).
Defined.

(** X10. From depth 0 the opening statement is [BEGIN] alone when no level
    is given, and [BEGIN ISOLATION LEVEL <level>] for each allowed level. *)
Theorem begin_statement driver level a :
  transactionDepth a = 0 ->
  rejectedLevel level = None ->
  client (snd (startTransaction driver level a)) =
    client a ++
    [CallQuery (match level with
                | Some l => "BEGIN ISOLATION LEVEL " +:+ l
                | None => "BEGIN"
                end) None].
Proof.
  intros Hzero Hlevel. rewrite startTransaction_unfold, Hlevel. cbv zeta.
  rewrite Hzero. unfold startSql. cbn [Z.add Z.eqb Pos.eqb]. unfold beginSql.
  destruct level as [l|].
  - apply rejectedLevel_None_valid, valid_level_truthy in Hlevel.
    rewrite Hlevel. cbn [default]. destruct (driver _ _); reflexivity.
  - cbn. destruct (driver _ _); reflexivity.
Qed.

Lemma begin_statement_witness :
  client (snd (startTransaction refusingDriver (Some "READ COMMITTED") newAdapter)) =
    [] ++ [CallQuery ("BEGIN ISOLATION LEVEL " +:+ "READ COMMITTED") None].
Proof.
  apply (begin_statement refusingDriver (Some "READ COMMITTED") newAdapter);
    reflexivity.
Defined.

(** X11. A nested [startTransaction] ignores the isolation level it is
    given: at a depth other than 0, two calls with any two allowed levels
    send the same statement. *)
Theorem nested_start_ignores_level driver level1 level2 a :
  transactionDepth a <> 0 ->
  rejectedLevel level1 = None ->
  rejectedLevel level2 = None ->
  client (snd (startTransaction driver level1 a)) =
  client (snd (startTransaction driver level2 a)).
Proof.
  intros Hdepth H1 H2.
  destruct (begin_only_from_depth_zero driver level1 a H1) as (s1 & -> & _ & E1).
  destruct (begin_only_from_depth_zero driver level2 a H2) as (s2 & -> & _ & E2).
  rewrite (E1 Hdepth), (E2 Hdepth). reflexivity.
Qed.

Lemma nested_start_ignores_level_witness :
  client (snd (startTransaction acceptingDriver (Some "SERIALIZABLE")
                 {| transactionDepth := 1; client := [CallQuery "BEGIN" None] |})) =
  client (snd (startTransaction acceptingDriver None
                 {| transactionDepth := 1; client := [CallQuery "BEGIN" None] |})).
Proof.
  apply (nested_start_ignores_level acceptingDriver (Some "SERIALIZABLE") None
           {| transactionDepth := 1; client := [CallQuery "BEGIN" None] |});
    [discriminate | reflexivity | reflexivity].
Defined.

(** X12. Savepoint names identify the depth: two depths get the same
    [SAVEPOINT] statement only if they are equal, so the savepoints that
    consecutive nested starts send are pairwise distinct. *)
Theorem savepoint_names_distinct :
  (forall d1 d2, savepointSql d1 = savepointSql d2 -> d1 = d2) /\
  (forall from n, NoDup (savepointCalls from n)).
Proof.
  assert (Hinj : forall d1 d2, savepointSql d1 = savepointSql d2 -> d1 = d2).
  { intros d1 d2 Heq. unfold savepointSql in Heq. cbn in Heq.
    injection Heq as Heq. exact (pretty_Z_inj _ _ Heq). }
  split; [exact Hinj|].
  intros from n. unfold savepointCalls. apply NoDup_fmap_2.
  - intros d1 d2 [= Heq]. exact (pretty_Z_inj _ _ Heq).
  - apply NoDup_seqZ.
Qed.

(** ** Sessions *)

Lemma session_invariant P driver steps :
  forall open a open' a',
    Forall (fun tx => tx = builtTransaction) open ->
    transactionDepth a = Z.of_nat (length open) ->
    session P driver steps open a = (Returns open', a') ->
    transactionDepth a' = Z.of_nat (length open') /\
    exists sent,
      client a' = client a ++ sent /\
      length sent =
        (length (List.filter is_start steps) +
         length (List.filter is_execute steps))%nat.
Proof.
  induction steps as [|step rest IH]; intros open a open' a' Hopen Hdepth Hrun.
  - cbn in Hrun. injection Hrun as <- <-. split; [exact Hdepth|].
    exists []. rewrite app_nil_r. split; reflexivity.
  - destruct step as [level|h|query]; cbn [session] in Hrun.
    + unfold bind in Hrun.
      destruct (startTransaction driver level a) as [[tx|t] a1] eqn:Hstart;
        [|discriminate].
      apply startTransaction_Returns in Hstart as [-> ->].
      apply IH in Hrun as (Hd & sent & Hsent & Hlen);
        [|constructor; [reflexivity|exact Hopen]
         |cbn [transactionDepth length]; lia].
      split; [exact Hd|]. cbn [client] in Hsent.
      eexists. rewrite Hsent, <- app_assoc. split; [reflexivity|].
      cbn [List.filter is_start is_execute length app]. lia.
    + destruct open as [|tx open1].
      * apply IH in Hrun as (Hd & sent & Hsent & Hlen);
          [|constructor|exact Hdepth].
        split; [exact Hd|]. exists sent. split; [exact Hsent|].
        cbn [List.filter is_start is_execute]. exact Hlen.
      * unfold bind in Hrun. rewrite terminal_unfold in Hrun.
        apply Forall_cons in Hopen as [-> Hopen].
        apply IH in Hrun as (Hd & sent & Hsent & Hlen);
          [|exact Hopen
           |cbn [release builtTransaction set_depth transactionDepth];
            cbn [length] in Hdepth; lia].
        split; [exact Hd|]. exists sent. split; [exact Hsent|].
        cbn [List.filter is_start is_execute]. exact Hlen.
    + unfold bind in Hrun. rewrite executeRaw_unfold in Hrun.
      destruct (mapArgs P query) as [bound|t]; [|discriminate].
      cbv zeta in Hrun.
      destruct (driver (client a) _) as [result|t]; [|discriminate].
      apply IH in Hrun as (Hd & sent & Hsent & Hlen);
        [|exact Hopen|exact Hdepth].
      split; [exact Hd|]. cbn [client] in Hsent.
      eexists. rewrite Hsent, <- app_assoc. split; [reflexivity|].
      cbn [List.filter is_start is_execute length app]. lia.
Qed.

(** X13. Along any session on an adapter that starts at depth 0 with no
    open transaction (starts, finishes of the innermost transaction and
    statements, interleaved at will, every step succeeding), the depth is
    the number of transactions still open, and the native connection has
    received one call per start and one per statement: the finishes sent
    nothing. *)
Theorem session_depth_is_open_count P driver steps a open a' :
  transactionDepth a = 0 ->
  session P driver steps [] a = (Returns open, a') ->
  transactionDepth a' = Z.of_nat (length open) /\
  exists sent,
    client a' = client a ++ sent /\
    length sent =
      (length (List.filter is_start steps) +
       length (List.filter is_execute steps))%nat.
Proof.
  intros Hzero Hrun.
  apply (session_invariant P driver steps [] a open a'); [constructor| |exact Hrun].
  rewrite Hzero. reflexivity.
Qed.

Lemma session_depth_is_open_count_witness :
  1 = Z.of_nat (length [builtTransaction]) /\
  exists sent,
    [CallQuery "BEGIN" None; CallQuery "SAVEPOINT sp_2" None;
     CallQuery "ROLLBACK TO SAVEPOINT sp_2" (Some []);
     CallQuery "INSERT INTO t DEFAULT VALUES" (Some [])] = [] ++ sent /\
    length sent = (2 + 2)%nat.
Proof.
  exact (session_depth_is_open_count examplePlatform acceptingDriver
           [StepStart None; StepStart None;
            StepExecute {| sql := "ROLLBACK TO SAVEPOINT sp_2"; args := [];
                           argTypes := [] |};
            StepFinish Rollback;
            StepExecute {| sql := "INSERT INTO t DEFAULT VALUES"; args := [];
                           argTypes := [] |}]
           newAdapter [builtTransaction]
           {| transactionDepth := 1;
              client := [CallQuery "BEGIN" None; CallQuery "SAVEPOINT sp_2" None;
                         CallQuery "ROLLBACK TO SAVEPOINT sp_2" (Some []);
                         CallQuery "INSERT INTO t DEFAULT VALUES" (Some [])] |}
           eq_refl eq_refl).
Defined.

Lemma startTransaction_client driver level a :
  rejectedLevel level = None ->
  client (snd (startTransaction driver level a)) =
    client a ++ [CallQuery (startSql level (transactionDepth a + 1)) None].
Proof.
  intros Hlevel. rewrite startTransaction_unfold, Hlevel. cbv zeta.
  destruct (driver (client a) _); reflexivity.
Qed.

(** X14. A savepoint name is used again once its level is free: after a
    nested transaction is finished, the next nested start sends the same
    statement the finished one had sent. *)
Theorem savepoint_name_reused driver level1 level2 h a tx a1 :
  transactionDepth a <> 0 ->
  rejectedLevel level2 = None ->
  startTransaction driver level1 a = (Returns tx, a1) ->
  exists statement,
    client a1 = client a ++ [CallQuery statement None] /\
    client (snd (startTransaction driver level2 (snd (terminal h tx a1)))) =
      client a1 ++ [CallQuery statement None].
Proof.
  intros Hdepth Hlevel2 Hstart.
  apply startTransaction_Returns in Hstart as [-> ->].
  exists (savepointSql (transactionDepth a + 1)).
  rewrite (startSql_nested_or_negative level1) by exact Hdepth.
  split; [reflexivity|].
  rewrite startTransaction_client by exact Hlevel2.
  rewrite terminal_unfold.
  cbn [snd release builtTransaction set_depth transactionDepth client].
  replace (transactionDepth a + 1 - 1 + 1) with (transactionDepth a + 1) by lia.
  rewrite (startSql_nested_or_negative level2) by exact Hdepth.
  reflexivity.
Qed.

Lemma savepoint_name_reused_witness :
  exists statement,
    [CallQuery "BEGIN" None; CallQuery "SAVEPOINT sp_2" None] =
      [CallQuery "BEGIN" None] ++ [CallQuery statement None] /\
    client (snd (startTransaction acceptingDriver None
                   (snd (terminal Rollback builtTransaction
                           {| transactionDepth := 2;
                              client := [CallQuery "BEGIN" None;
                                         CallQuery "SAVEPOINT sp_2" None] |})))) =
      [CallQuery "BEGIN" None; CallQuery "SAVEPOINT sp_2" None] ++
      [CallQuery statement None].
Proof.
  exact (savepoint_name_reused acceptingDriver None None Rollback
           {| transactionDepth := 1; client := [CallQuery "BEGIN" None] |}
           builtTransaction
           {| transactionDepth := 2;
              client := [CallQuery "BEGIN" None;
                         CallQuery "SAVEPOINT sp_2" None] |}
           ltac:(discriminate) eq_refl eq_refl).
Defined.

(** ** More on the value mappers *)

Lemma mapCell_again P v colType o :
  mapCell P v colType = Returns o ->
  mapCell P o colType = Returns (or_null o).
Proof.
  unfold mapCell.
  destruct v as [| |b|n|z|s|[time|]|bytes|items|fields];
    cbn [or_null nullish typeof and_then Date_toISOString];
    try discriminate;
    destruct colType as [c|];
    try (destruct (Z.eqb c ColumnTypeEnum.Json) eqn:Hjson);
    try (destruct (JSON_stringify P _) as [[text|]|t]);
    cbn [and_then stringified];
    try discriminate;
    intros [= <-];
    cbn [or_null nullish typeof]; rewrite ?Hjson; reflexivity.
Qed.

(** X15. Mapping an already mapped row again never throws, and changes
    nothing except that an [undefined] (left where [JSON.stringify] had
    returned [undefined]) becomes [null]; a mapped row without [undefined]
    is mapped to itself. *)
Theorem mapRow_again P row columnTypes out :
  mapRow P row columnTypes = Returns out ->
  mapRow P out columnTypes = Returns (or_null <$> out) /\
  (VUndefined ∉ out -> mapRow P out columnTypes = Returns out).
Proof.
  intros Hmap. apply mapRow_Returns in Hmap as [Hlen Hpoint].
  assert (Hagain : mapRow P out columnTypes = Returns (or_null <$> out)).
  { unfold mapRow. apply map_from_pointwise; [apply length_fmap|].
    intros k o Ho. exists (or_null o). rewrite list_lookup_fmap, Ho.
    split; [reflexivity|]. cbn [Nat.add].
    destruct (row !! k) as [v|] eqn:Hv.
    - destruct (Hpoint k v Hv) as (o' & Ho' & Hcell).
      rewrite Ho in Ho'. injection Ho' as <-.
      exact (mapCell_again P v _ o Hcell).
    - apply lookup_ge_None in Hv. apply lookup_lt_Some in Ho. lia. }
  split; [exact Hagain|].
  intros Hundef. rewrite Hagain. f_equal.
  rewrite <- (list_fmap_id out) at 2. apply list_fmap_ext.
  intros k o Ho. destruct o; try reflexivity.
  exfalso. apply Hundef. apply list_elem_of_lookup. exists k. exact Ho.
Qed.

Lemma mapRow_again_witness :
  mapRow examplePlatform [VNull; VString "12"; VString "{}"] [1; 1; 11] =
  Returns (or_null <$> [VNull; VString "12"; VString "{}"]).
Proof.
  exact (proj1 (mapRow_again examplePlatform
                  [VUndefined; VBigInt 12; VObject []] [1; 1; 11]
                  [VNull; VString "12"; VString "{}"] eq_refl)).
Defined.

(** X16. A mapped row holds no bigint and no Date; in a column typed
    [Json] the only value of type ["object"] it can hold is [null]; and it
    holds [undefined] only where [JSON.stringify] returned [undefined] for
    an object of a column typed [Json]. *)
Theorem mapRow_output_plain P row columnTypes out (i : nat) o :
  mapRow P row columnTypes = Returns out ->
  out !! i = Some o ->
  typeof o <> TyBigint /\
  instanceof_Date o = false /\
  (columnTypes !! i = Some ColumnTypeEnum.Json ->
   typeof o = TyObject -> o = VNull) /\
  (o = VUndefined ->
   exists cell,
     row !! i = Some cell /\ typeof cell = TyObject /\
     columnTypes !! i = Some ColumnTypeEnum.Json /\
     JSON_stringify P cell = Returns None).
Proof.
  intros Hmap Ho. apply mapRow_Returns in Hmap as [Hlen Hpoint].
  destruct (row !! i) as [v|] eqn:Hv;
    [|apply lookup_ge_None in Hv; apply lookup_lt_Some in Ho; lia].
  destruct (Hpoint i v Hv) as (o' & Ho' & Hcell).
  rewrite Ho in Ho'. injection Ho' as <-. clear Hpoint Ho Hlen.
  revert Hcell. unfold mapCell.
  destruct v as [| |b|n|z|s|[time|]|bytes|items|fields];
    cbn [or_null nullish typeof and_then Date_toISOString];
    try discriminate;
    destruct (columnTypes !! i) as [c|];
    try (destruct (Z.eqb_spec c ColumnTypeEnum.Json) as [->|Hc]);
    try (destruct (JSON_stringify P _) as [[text|]|t] eqn:Hjson);
    cbn [and_then stringified];
    try discriminate;
    intros [= <-];
    (split; [discriminate|]); (split; [reflexivity|]);
    (split; [intros Hc' Hobj; cbn in Hobj; first [reflexivity|congruence]
            |intros Hu; try discriminate]).
  all: eexists; split; [reflexivity|]; split; [reflexivity|];
       split; [reflexivity|exact Hjson].
Qed.

Lemma mapRow_output_plain_witness :
  typeof (VString "{}") <> TyBigint /\
  instanceof_Date (VString "{}") = false /\
  (([11] : list ColumnType) !! 0%nat = Some ColumnTypeEnum.Json ->
   typeof (VString "{}") = TyObject -> VString "{}" = VNull) /\
  (VString "{}" = VUndefined ->
   exists cell,
     [VObject []] !! 0%nat = Some cell /\ typeof cell = TyObject /\
     ([11] : list ColumnType) !! 0%nat = Some ColumnTypeEnum.Json /\
     JSON_stringify examplePlatform cell = Returns None).
Proof.
  exact (mapRow_output_plain examplePlatform [VObject []] [11]
           [VString "{}"] 0 (VString "{}") eq_refl eq_refl).
Defined.

(** X17. [mapRow] reads the column types only at the indices of the row:
    two lists of column types that agree there give the same mapped row, so
    surplus column types are ignored. *)
Theorem mapRow_reads_row_indices P row columnTypes1 columnTypes2 :
  (forall i : nat, (i < length row)%nat -> columnTypes1 !! i = columnTypes2 !! i) ->
  mapRow P row columnTypes1 = mapRow P row columnTypes2.
Proof.
  intros Hagree. unfold mapRow. apply map_from_ext.
  intros k v Hv. apply lookup_lt_Some in Hv. cbn [Nat.add].
  rewrite (Hagree k Hv). reflexivity.
Qed.

Lemma mapRow_reads_row_indices_witness :
  mapRow examplePlatform [VObject []] [11] =
  mapRow examplePlatform [VObject []] [11; 7; 0].
Proof.
  apply (mapRow_reads_row_indices examplePlatform [VObject []] [11] [11; 7; 0]).
  intros [|i] Hi; [reflexivity|]. cbn in Hi. lia.
Defined.

(** X18. With the column type that [inferColumnType] gives a value, row
    mapping hands plain objects to [JSON.stringify] and nothing else:
    arrays, buffers, strings, numbers and booleans are returned as they are
    and never make the turn throw; bigints and Dates become text as always,
    the Invalid Date throwing. *)
Theorem mapCell_with_inferred_type P v :
  mapCell P v (Some (inferColumnType v)) =
  match v with
  | VUndefined | VNull => Returns VNull
  | VBigInt z => Returns (VString (pretty z))
  | VDate (ValidDate time) => Returns (VString (toISOString P time))
  | VDate InvalidDate => Throws RangeError_invalid_time
  | VObject _ => and_then (JSON_stringify P v) (fun r => Returns (stringified r))
  | _ => Returns v
  end.
Proof. destruct v as [| | | | | |[|]| | |]; reflexivity. Qed.

(** X19. [inferColumnType] only ever answers one of seven codes: Boolean,
    Int64, Bytes, DateTime, Text, Json or UnknownNumber. It never infers an
    array type, not even for an array, and never a 32-bit integer or a
    float type for a number. *)
Theorem inferColumnType_range v :
  inferColumnType v ∈
    [ColumnTypeEnum.Boolean; ColumnTypeEnum.Int64; ColumnTypeEnum.Bytes;
     ColumnTypeEnum.DateTime; ColumnTypeEnum.Text; ColumnTypeEnum.Json;
     ColumnTypeEnum.UnknownNumber] /\
  (inferColumnType v < ColumnTypeEnum.Int32Array \/
   inferColumnType v > ColumnTypeEnum.UuidArray).
Proof.
  split.
  - destruct v; cbn [inferColumnType]; set_solver.
  - destruct v; first [left; reflexivity | right; reflexivity].
Qed.

(** X20. A string argument is converted only under the hints [int],
    [float], [bigint] and [bytes]: to the number [parseInt] or [parseFloat]
    reads from it, to the bigint [BigInt] reads from it, to the buffer
    [Buffer.from] decodes from it, none of which is a string; under every
    other hint (decimal, datetime, json, uuid, ...) it is passed as the
    same string. *)
Theorem mapArg_string P s argType v :
  mapArg P (VString s) argType = Returns v ->
  match scalarType argType with
  | ScalarInt => v = VNumber (parseInt10 P s)
  | ScalarFloat => v = VNumber (parseFloat P s)
  | ScalarBigint => exists z, BigInt P s = Some z /\ v = VBigInt z
  | ScalarBytes => v = VBuffer (Buffer_from_base64 P s)
  | _ => v = VString s
  end /\
  (typeof v = TyString ->
   v = VString s /\
   scalarType argType <> ScalarInt /\ scalarType argType <> ScalarFloat /\
   scalarType argType <> ScalarBigint /\ scalarType argType <> ScalarBytes).
Proof.
  unfold mapArg. destruct (scalarType argType);
    try (intros [= <-]; split;
         [reflexivity
         |intros Hty; first [discriminate Hty
                            |repeat split; discriminate]]).
  destruct (BigInt P s) as [z|] eqn:Hbig; [|discriminate].
  intros [= <-]. split; [exists z; split; reflexivity|discriminate].
Qed.

Lemma mapArg_string_witness :
  VBuffer [] = VBuffer (Buffer_from_base64 examplePlatform "aGk=").
Proof.
  exact (proj1 (mapArg_string examplePlatform "aGk="
                  {| scalarType := ScalarBytes; dbType := None;
                     arity := ArityScalar |}
                  (VBuffer []) eq_refl)).
Defined.

(** X21. [mapArg] consults the scalar kind of the hint only, never its
    arity or native type name, and does not look inside an array: an array
    argument is passed as it is, so the elements of a list argument are not
    converted. *)
Theorem mapArg_scalar_kind_only P arg argType1 argType2 :
  scalarType argType1 = scalarType argType2 ->
  mapArg P arg argType1 = mapArg P arg argType2 /\
  forall items, mapArg P (VArray items) argType1 = Returns (VArray items).
Proof.
  intros Hkind. split; [|reflexivity].
  unfold mapArg. rewrite Hkind. reflexivity.
Qed.

Lemma mapArg_scalar_kind_only_witness :
  mapArg examplePlatform (VArray [VString "1"; VString "2"])
    {| scalarType := ScalarInt; dbType := None; arity := ArityList |} =
  Returns (VArray [VString "1"; VString "2"]).
Proof.
  exact (proj2 (mapArg_scalar_kind_only examplePlatform VNull
                  {| scalarType := ScalarInt; dbType := None; arity := ArityList |}
                  {| scalarType := ScalarInt; dbType := Some "int4";
                     arity := ArityScalar |} eq_refl)
               [VString "1"; VString "2"]).
Defined.

(** ** More on the error mapper *)

(** X22. The four constraint kinds are answered for their own code and for
    nothing else: [convertDriverError] gives the kind listed for a code
    exactly when the thrown value is an [Error] carrying that code. And it
    never answers [InvalidIsolationLevel]. *)
Theorem constraint_kind_iff_code error c kind :
  (c, kind) ∈ errorTable ->
  (convertDriverError error = kind <->
   exists e, as_Error error = Some e /\ code e = Some c) /\
  forall level, convertDriverError error <> InvalidIsolationLevel level.
Proof.
  intros Hin. unfold convertDriverError.
  destruct (as_Error error) as [e|].
  - destruct (code_is e "23505") eqn:H1;
      [|destruct (code_is e "23502") eqn:H2;
        [|destruct (code_is e "23503") eqn:H3;
          [|destruct (code_is e "42P01") eqn:H4]]].
    all: rewrite ?code_is_true, ?code_is_false in *.
    all: unfold errorTable in Hin.
    all: repeat (apply elem_of_cons in Hin as [[= -> ->]|Hin]).
    all: try (apply elem_of_nil in Hin; contradiction).
    all: split; [|try discriminate].
    all: try (split; [intros _; exists e; split; [reflexivity|assumption]
                     |reflexivity]).
    all: try (split; [discriminate|intros (e' & [= <-] & He'); congruence]).
    all: try (intros level;
              destruct (String.eqb (name e) "SQLiteError");
              [|destruct (truthy_string (code e))]; discriminate).
    all: split;
      [destruct (String.eqb (name e) "SQLiteError");
       [|destruct (truthy_string (code e))]; discriminate
      |intros (e' & [= <-] & He'); congruence].
  - unfold errorTable in Hin.
    repeat (apply elem_of_cons in Hin as [[= -> ->]|Hin]).
    all: try (apply elem_of_nil in Hin; contradiction).
    all: split; [|discriminate].
    all: split; [discriminate|intros (e' & He' & _); discriminate].
Qed.

Lemma constraint_kind_iff_code_witness :
  convertDriverError
    (ErrorInstance {| name := "SQLiteError"; message := "duplicate key";
                      code := Some "23505"; errno := Some 2067 |}) =
  UniqueConstraintViolation.
Proof.
  refine (proj2 (proj1 (constraint_kind_iff_code
            (ErrorInstance {| name := "SQLiteError"; message := "duplicate key";
                              code := Some "23505"; errno := Some 2067 |})
            "23505" UniqueConstraintViolation _)) _).
  - unfold errorTable. set_solver.
  - eexists. split; reflexivity.
Defined.

(** ** Outcomes *)

(** X24. [executeRaw] resolves exactly when the arguments can be mapped and
    the driver returns; its value is then the [affectedRows] the driver
    reported, or [0] when the result has none. *)
Theorem executeRaw_resolves P driver query a n :
  fst (executeRaw P driver query a) = Returns n <->
  exists bound result,
    mapArgs P query = Returns bound /\
    driver (client a) (CallQuery (sql query) (Some bound)) = Returns result /\
    n = default 0 (affectedRows result).
Proof.
  rewrite executeRaw_unfold. split.
  - destruct (mapArgs P query) as [bound|t]; [|discriminate].
    cbv zeta. cbn [fst].
    destruct (driver (client a) _) as [result|t] eqn:Hdriver; [|discriminate].
    intros [= <-]. exists bound, result. repeat split. exact Hdriver.
  - intros (bound & result & -> & Hdriver & ->). cbv zeta. cbn [fst].
    rewrite Hdriver. reflexivity.
Qed.

(** X25. [startTransaction] resolves exactly when the isolation level is
    allowed and the driver accepts the statement; the depth then rises by
    one. In every other case it throws and the depth is what it was. *)
Theorem startTransaction_outcome driver level a :
  let outcome := startTransaction driver level a in
  ((exists tx, fst outcome = Returns tx) <->
   rejectedLevel level = None /\
   exists result,
     driver (client a)
       (CallQuery (startSql level (transactionDepth a + 1)) None) =
     Returns result) /\
  ((exists tx, fst outcome = Returns tx) ->
   transactionDepth (snd outcome) = transactionDepth a + 1) /\
  ((exists t, fst outcome = Throws t) ->
   transactionDepth (snd outcome) = transactionDepth a).
Proof.
  cbv zeta. rewrite startTransaction_unfold.
  destruct (rejectedLevel level) as [bad|].
  - cbn [fst snd]. split; [|split].
    + split; [intros [tx H]; discriminate|intros [H _]; discriminate].
    + intros [tx H]. discriminate.
    + reflexivity.
  - cbv zeta.
    destruct (driver (client a) _) as [result|t]; cbn [fst snd transactionDepth].
    + split; [|split].
      * split; [intros _; split; [reflexivity|eauto]|intros _; eauto].
      * reflexivity.
      * intros [t H]. discriminate.
    + split; [|split].
      * split; [intros [tx H]; discriminate|intros [_ [r H]]; discriminate].
      * intros [tx H]. discriminate.
      * intros _. lia.
Qed.

Lemma startAll_built driver levels :
  forall a txs a1,
    startAll driver levels a = (Returns txs, a1) ->
    Forall (fun tx => tx = builtTransaction) txs /\
    length txs = length levels.
Proof.
  induction levels as [|level rest IH]; intros a txs a1 Hall.
  - cbn in Hall. injection Hall as <- <-. split; [constructor|reflexivity].
  - apply startAll_cons in Hall as (rest_txs & -> & Hrest).
    apply IH in Hrest as [Hbuilt Hlen].
    split; [constructor; [reflexivity|exact Hbuilt]|cbn; f_equal; exact Hlen].
Qed.

(** X26. The adapter does not check the order of terminal calls: once
    nested transactions are started, finishing them in any order and with
    any mix of [commit] and [rollback] leaves the adapter exactly as
    finishing them in LIFO order does. *)
Theorem finish_order_irrelevant driver levels a txs a1
    (order : list MyTransaction) (hooks1 hooks2 : list Terminal) :
  startAll driver levels a = (Returns txs, a1) ->
  order ≡ₚ txs ->
  length hooks1 = length txs ->
  length hooks2 = length txs ->
  terminals (zip hooks1 order) a1 = terminals (zip hooks2 (reverse txs)) a1.
Proof.
  intros Hall Hperm Hlen1 Hlen2.
  apply startAll_built in Hall as [Hbuilt _].
  assert (Hzip : forall hooks l,
            Forall (fun tx => tx = builtTransaction) l ->
            Forall (fun step : Terminal * MyTransaction =>
                      snd step = builtTransaction) (zip hooks l)).
  { intros hooks l Hl. apply Forall_forall. intros [h tx] Hin. cbn.
    apply elem_of_zip_r in Hin. rewrite Forall_forall in Hl. apply Hl, Hin. }
  rewrite !terminals_decrement.
  - rewrite !length_zip, length_reverse, (Permutation_length Hperm).
    rewrite Hlen1, Hlen2. reflexivity.
  - apply Hzip, Forall_reverse, Hbuilt.
  - apply Hzip. rewrite Hperm. exact Hbuilt.
Qed.

Lemma finish_order_irrelevant_witness :
  terminals (zip [Commit; Commit] [builtTransaction; builtTransaction])
    {| transactionDepth := 2;
       client := [CallQuery "BEGIN" None; CallQuery "SAVEPOINT sp_2" None] |} =
  terminals (zip [Rollback; Commit]
               (reverse [builtTransaction; builtTransaction]))
    {| transactionDepth := 2;
       client := [CallQuery "BEGIN" None; CallQuery "SAVEPOINT sp_2" None] |}.
Proof.
  apply (finish_order_irrelevant acceptingDriver [None; None] newAdapter
           [builtTransaction; builtTransaction]
           {| transactionDepth := 2;
              client := [CallQuery "BEGIN" None;
                         CallQuery "SAVEPOINT sp_2" None] |});
    reflexivity.
Defined.
